(** * rif-relay-server: the transaction management core

    A shallow embedding of [TransactionManager] (TransactionManager.ts) and
    of the collaborators it talks to, followed by the properties the
    specification states about it.

    Conventions of the embedding.
    - A JavaScript [number] that holds a gas price or a configured factor is
      a binary64 float ([PrimFloat.float]); the counters, nonces, block
      heights and attempt counts, which the code only ever compares, adds
      one to or subtracts, are integers ([Z]), with [undefined] and [NaN]
      written out where the code can produce them.
    - A [Buffer] is represented by its 0x-prefixed hexadecimal rendering.
    - An [async] method is a computation in the monad [M]: it reads and
      writes the manager's mutable state and either resolves to a value or
      rejects with an [Error]; state written before a rejection stays
      written, as in JavaScript.
    - One call runs to completion before the next starts; the nonce mutex,
      which only orders concurrent callers, and the log lines are left out. *)

From Corelib Require Import PrimFloat FloatOps SpecFloat FloatAxioms.
From Stdlib Require Import ZArith Ascii String List Lia.
From stdpp Require Import gmap strings list.

Local Open Scope string_scope.
Local Open Scope Z_scope.

(** ** JavaScript built-ins used by the source *)

Module Js.

(** A counter cell of [nonces: Record<string, number>]: an integer, or the
    [NaN] that [undefined++] leaves behind.  A missing key ([undefined]) is
    [None] at the lookup. *)
Inductive Number := Num (z : Z) | NaN.

#[global] Instance Number_eq_dec : EqDecision Number.
Proof. solve_decision. Defined.

(** [n > c] for an integer [n] and a cell [c]: comparing with [undefined]
    or [NaN] is [false]. *)
Definition gt (n : Z) (c : option Number) : bool :=
  match c with
  | Some (Num m) => m <? n
  | Some NaN | None => false
  end.

(** The value [c++] stores back. *)
Definition incr (c : option Number) : Number :=
  match c with
  | Some (Num m) => Num (m + 1)
  | Some NaN | None => NaN
  end.

(** The binary64 float nearest to an integer (ties to even). *)
Definition ofZ (z : Z) : float :=
  SF2Prim (binary_normalize prec emax z 0 false).

Definition isWhiteSpace (c : ascii) : bool :=
  let n := N_of_ascii c in
  ((9 <=? n) && (n <=? 13) || (n =? 32))%N.

Fixpoint trimStart (s : string) : string :=
  match s with
  | String c s' => if isWhiteSpace c then trimStart s' else s
  | EmptyString => s
  end.

(** The value of a digit in the given radix, if it is one. *)
Definition digitValue (radix : Z) (c : ascii) : option Z :=
  let n := Z.of_N (N_of_ascii c) in
  let v := if (48 <=? n) && (n <=? 57) then Some (n - 48)
           else if (97 <=? n) && (n <=? 122) then Some (n - 87)
           else if (65 <=? n) && (n <=? 90) then Some (n - 55)
           else None in
  match v with
  | Some d => if d <? radix then Some d else None
  | None => None
  end.

(** The longest prefix of digits, read as an integer: [acc] is [None]
    until a digit has been seen. *)
Fixpoint digits (radix : Z) (acc : option Z) (s : string) : option Z :=
  match s with
  | String c s' =>
      match digitValue radix c with
      | Some d => digits radix (Some (default 0 acc * radix + d)) s'
      | None => acc
      end
  | EmptyString => acc
  end.

Definition stripSign (s : string) : bool * string :=
  match s with
  | String "-" s' => (true, s')
  | String "+" s' => (false, s')
  | _ => (false, s)
  end.

Definition stripHexPrefix (s : string) : option string :=
  match s with
  | String "0" (String "x" s') | String "0" (String "X" s') => Some s'
  | _ => None
  end.

(** [parseInt(s)] with no radix argument. *)
Definition parseInt (s : string) : float :=
  let '(neg, s1) := stripSign (trimStart s) in
  let r := match stripHexPrefix s1 with
           | Some s2 => digits 16 None s2
           | None => digits 10 None s1
           end in
  match r with
  | Some z => if neg then (- ofZ z)%float else ofZ z
  | None => nan
  end.

(** [Math.round]: the integer nearest to [x], ties towards +infinity;
    NaN, the infinities and the zeros are returned as they are. *)
Definition Math_round (x : float) : float :=
  match Prim2SF x with
  | S754_finite s m e =>
      if 0 <=? e then x
      else
        let unit := 2 ^ (- e) in
        let half := 2 ^ (- e - 1) in
        if s then
          (* -ceil(|x| - 1/2) *)
          let q := (Z.pos m - half + unit - 1) / unit in
          SF2Prim (binary_normalize prec emax (- q) 0 true)
        else
          (* floor(x + 1/2) *)
          let q := (Z.pos m + half) / unit in
          SF2Prim (binary_normalize prec emax q 0 false)
  | _ => x
  end.

(** [Math.floor], which the source never calls: the rounding the
    specification gives for a boosted gas price. *)
Definition Math_floor (x : float) : float :=
  match Prim2SF x with
  | S754_finite s m e =>
      if 0 <=? e then x
      else
        let unit := 2 ^ (- e) in
        if s then SF2Prim (binary_normalize prec emax (- ((Z.pos m + unit - 1) / unit)) 0 true)
        else SF2Prim (binary_normalize prec emax (Z.pos m / unit) 0 false)
  | _ => x
  end.

Definition lowerAscii (c : ascii) : ascii :=
  let n := N_of_ascii c in
  if ((65 <=? n) && (n <=? 90))%N then ascii_of_N (n + 32) else c.

(** [String.prototype.toLowerCase] on the ASCII range, which is all a
    hexadecimal hash contains. *)
Fixpoint toLowerCase (s : string) : string :=
  match s with
  | String c s' => String (lowerAscii c) (toLowerCase s')
  | EmptyString => EmptyString
  end.

(** [s.slice(2)] *)
Definition slice2 (s : string) : string :=
  match s with
  | String _ (String _ s') => s'
  | _ => EmptyString
  end.

End Js.

(** ** Outcomes and errors *)

(** What awaiting a promise gives: the value it resolved to, or the reason
    it was rejected with. *)
Inductive Result (E A : Type) :=
| Ok (a : A)
| Err (e : E).
Arguments Ok {E A} a.
Arguments Err {E A} e.

Definition PrefixedHexString := string.

(** ** Stored transactions (StoredTransaction.ts) *)

(** Modelled from the spec: the [ServerAction] tags, whose declaration is
    not among the sources. *)
Inductive ServerAction :=
| RelayCall
| SetHashApproval
| DepositWithdraw
| ValueTransfer.

(** ethereumjs-tx [TransactionOptions] (chain id and hardfork), opaque to
    the manager. *)
Record TransactionOptions := { chainId : Z; hardfork : string }.

(** An ethereumjs-tx [Transaction]: the fields its constructor was given
    ([None] for a field left out, which encodes as the empty buffer, that
    is 0) and, once [sign] has run on it, the raw signed transaction. *)
Record Transaction := {
  tx_to : PrefixedHexString;
  tx_value : option PrefixedHexString;
  tx_gasLimit : Z;
  tx_gasPrice : float;
  tx_data : PrefixedHexString;
  tx_nonce : option Js.Number;
  tx_options : TransactionOptions;
  tx_raw : option PrefixedHexString
}.

Record StoredTransactionMetadata := {
  md_from : string;
  md_attempts : Z;
  md_serverAction : ServerAction;
  md_creationBlockNumber : Z;
  md_boostBlockNumber : option Z;
  md_minedBlockNumber : option Z
}.

(** Modelled from the spec: the row type of StoredTransaction.ts, which is
    not among the sources.  The fields are those of the spec's data model,
    under the names the manager reads them by. *)
Record StoredTransaction := {
  txId : PrefixedHexString;
  from : string;
  to : PrefixedHexString;
  gas : Z;
  gasPrice : float;
  value : Z;
  data : PrefixedHexString;
  nonce : Z;
  serverAction : ServerAction;
  attempts : Z;
  creationBlockNumber : Z;
  boostBlockNumber : option Z;
  minedBlockNumber : option Z
}.

(** [Object.assign({}, tx, { minedBlockNumber })] *)
Definition withMinedBlockNumber (tx : StoredTransaction) (b : Z) : StoredTransaction :=
  {| txId := txId tx; from := from tx; to := to tx; gas := gas tx;
     gasPrice := gasPrice tx; value := value tx; data := data tx;
     nonce := nonce tx; serverAction := serverAction tx;
     attempts := attempts tx; creationBlockNumber := creationBlockNumber tx;
     boostBlockNumber := boostBlockNumber tx; minedBlockNumber := Some b |}.

(** The integer a numeric transaction field encodes: an integer is itself,
    a field that is [undefined] or [NaN] is the empty buffer, 0. *)
Definition numberToInt (n : option Js.Number) : Z :=
  match n with
  | Some (Js.Num z) => z
  | Some Js.NaN | None => 0
  end.

(** The integer a hexadecimal amount encodes; ["0x"] and a field left out
    are 0. *)
Definition hexToInt (v : option PrefixedHexString) : Z :=
  match v with
  | Some s => default 0 (Js.digits 16 None (default s (Js.stripHexPrefix s)))
  | None => 0
  end.

Section CreateStoredTransaction.

(** ethereumjs-tx: [bufferToHex(tx.hash())], the keccak-256 hash of the
    transaction with the signature it carries. *)
Variable txHash : Transaction -> PrefixedHexString.

(** Modelled from the spec: [createStoredTransaction] of
    StoredTransaction.ts, which is not among the sources.  The row takes
    its chain fields from the transaction, its [txId] from the hash of the
    signed transaction, and the rest from the metadata. *)
Definition createStoredTransaction (tx : Transaction)
    (metadata : StoredTransactionMetadata) : StoredTransaction :=
  {| txId := txHash tx;
     from := md_from metadata;
     to := tx_to tx;
     gas := tx_gasLimit tx;
     gasPrice := tx_gasPrice tx;
     value := hexToInt (tx_value tx);
     data := tx_data tx;
     nonce := numberToInt (tx_nonce tx);
     serverAction := md_serverAction metadata;
     attempts := md_attempts metadata;
     creationBlockNumber := md_creationBlockNumber metadata;
     boostBlockNumber := md_boostBlockNumber metadata;
     minedBlockNumber := md_minedBlockNumber metadata |}.

End CreateStoredTransaction.

(** ** The transaction store (TxStoreManager.ts) *)

Module TxStore.

Inductive StoreError :=
| DuplicateNonce (signer : string) (n : Z).

(** Modelled from the spec: the store of TxStoreManager.ts, which is not
    among the sources.  The rows, kept in ascending order of their logical
    key [(from, nonce)]. *)
Definition t := list StoredTransaction.

Definition key (tx : StoredTransaction) : string * Z := (from tx, nonce tx).

Definition compareKeys (k1 k2 : string * Z) : comparison :=
  match String.compare (fst k1) (fst k2) with
  | Eq => Z.compare (snd k1) (snd k2)
  | c => c
  end.

(** Modelled from the spec: [put(tx, replace_existing)].  A row with the
    same key is overwritten when [replace_existing] is set and makes the
    call fail with [DuplicateNonce] when it is not; otherwise the row is
    inserted at its place in the order. *)
Fixpoint putTx (tx : StoredTransaction) (updateExisting : bool) (s : t)
    : Result StoreError t :=
  match s with
  | [] => Ok [tx]
  | row :: rest =>
      match compareKeys (key tx) (key row) with
      | Lt => Ok (tx :: row :: rest)
      | Eq => if updateExisting then Ok (tx :: rest)
              else Err (DuplicateNonce (from tx) (nonce tx))
      | Gt => match putTx tx updateExisting rest with
              | Ok rest' => Ok (row :: rest')
              | Err e => Err e
              end
      end
  end.

(** Modelled from the spec: [get_all], all rows in ascending key order. *)
Definition getAll (s : t) : list StoredTransaction := s.

(** Modelled from the spec: [get_all_by_signer], the signer's rows in
    ascending nonce order. *)
Definition getAllBySigner (signer : string) (s : t) : list StoredTransaction :=
  List.filter (fun row => String.eqb (from row) signer) s.

(** Modelled from the spec: [remove_txs_until_nonce], which deletes every
    row of the signer with a nonce up to and including the given one. *)
Definition removeTxsUntilNonce (signer : string) (n : Z) (s : t) : t :=
  List.filter (fun row => negb (String.eqb (from row) signer && (nonce row <=? n))) s.

(** The row stored under a key. *)
Fixpoint lookup (k : string * Z) (s : t) : option StoredTransaction :=
  match s with
  | [] => None
  | row :: rest =>
      match compareKeys k (key row) with
      | Eq => Some row
      | _ => lookup k rest
      end
  end.

End TxStore.

(** ** The collaborators, as the manager sees them *)

(** KeyManager.ts: the keys of one identity.  [signTransaction] signs the
    transaction and returns the raw signed bytes, or throws. *)
Record KeyManager := {
  getAddress : nat -> string;
  isSigner : string -> bool;
  signTransaction : string -> Transaction -> Result string PrefixedHexString
}.

(** What [getTransaction] resolves to when the node knows the hash. *)
Record ChainTransaction := {
  ct_from : string;
  ct_nonce : Z;
  ct_blockNumber : option Z
}.

(** The [ContractInteractor] of rif-relay-common: each call either resolves
    or rejects with a message, and the node's answers are taken as fixed
    for the length of one call of the manager.  The second argument of
    [getTransactionCount] is the block tag, [None] where the caller leaves
    it out (the node's default, the latest block). *)
Record ContractInteractor := {
  getRawTxOptions : option TransactionOptions;
  getGasPrice : Result string string;
  getTransactionCount : string -> option string -> Result string Z;
  broadcastTransaction : PrefixedHexString -> Result string PrefixedHexString;
  getTransaction : PrefixedHexString -> Result string (option ChainTransaction)
}.

(** A web3 contract method object. *)
Record Method := {
  encodeABI : PrefixedHexString;
  estimateGas : string -> Result string string
}.

(** The options of [ServerConfigParams] the manager reads. *)
Record ServerConfigParams := {
  estimateGasFactor : float;
  defaultGasLimit : float;
  retryGasPriceFactor : float;
  maxGasPrice : string;
  confirmationsNeeded : Z;
  pendingTransactionTimeoutBlocks : Z
}.

Record SignedTransactionDetails := {
  transactionHash : PrefixedHexString;
  signedTx : PrefixedHexString
}.

Record SendTransactionDetails := {
  sd_signer : string;
  sd_serverAction : ServerAction;
  sd_method : option Method;
  sd_destination : string;
  sd_value : option string;
  sd_gasLimit : Z;
  sd_gasPrice : option string;
  sd_creationBlockNumber : Z
}.

(** ** The manager's state and the monad of its methods *)

(** The fields of the class that are set once, by the constructor and by
    [_init]. *)
Record TransactionManager := {
  managerKeyManager : KeyManager;
  workersKeyManager : KeyManager;
  contractInteractor : ContractInteractor;
  config : ServerConfigParams;
  rawTxOptions : TransactionOptions
}.

(** The fields that change: the counters and the store behind
    [txStoreManager]. *)
Record State := {
  nonces : gmap string Js.Number;
  txStoreManager : TxStore.t
}.

(** What a method can throw: the manager's own hash check, or the failure
    of a collaborator passed on. *)
Inductive Error :=
| TxHashMismatch (fromReceipt fromTxstore : PrefixedHexString)
| ChainError (message : string)
| KeyManagerError (message : string)
| MethodError (message : string)
| StoreError (e : TxStore.StoreError).

Definition M (A : Type) : Type := State -> Result Error A * State.

#[global] Instance M_ret : MRet M := fun A a s => (Ok a, s).

#[global] Instance M_bind : MBind M := fun A B f m s =>
  match m s with
  | (Ok a, s') => f a s'
  | (Err e, s') => (Err e, s')
  end.

Definition throw {A} (e : Error) : M A := fun s => (Err e, s).

Definition getState : M State := fun s => (Ok s, s).

(** [try { body } catch (e) { handler e }] *)
Definition tryCatch {A} (body : M A) (handler : Error -> M A) : M A := fun s =>
  match body s with
  | (Ok a, s') => (Ok a, s')
  | (Err e, s') => handler e s'
  end.

(** Awaiting a collaborator: a rejection is rethrown under the tag of the
    collaborator it came from. *)
Definition await {A} (tag : string -> Error) (r : Result string A) : M A :=
  match r with
  | Ok a => mret a
  | Err message => throw (tag message)
  end.

(** [this.nonces[signer] = n] *)
Definition setNonce (signer : string) (n : Js.Number) : M unit := fun s =>
  (Ok tt, {| nonces := <[signer := n]> (nonces s); txStoreManager := txStoreManager s |}).

(** [await this.txStoreManager.putTx(tx, updateExisting)] *)
Definition putTx (tx : StoredTransaction) (updateExisting : bool) : M unit := fun s =>
  match TxStore.putTx tx updateExisting (txStoreManager s) with
  | Ok store' => (Ok tt, {| nonces := nonces s; txStoreManager := store' |})
  | Err e => (Err (StoreError e), s)
  end.

(** [await this.txStoreManager.removeTxsUntilNonce(signer, n)] *)
Definition removeTxsUntilNonce (signer : string) (n : Z) : M unit := fun s =>
  (Ok tt, {| nonces := nonces s;
             txStoreManager := TxStore.removeTxsUntilNonce signer n (txStoreManager s) |}).

(** [for (const x of l) { body x }] *)
Fixpoint forEach {A} (l : list A) (body : A -> M unit) : M unit :=
  match l with
  | [] => mret tt
  | x :: rest => body x ;; forEach rest body
  end.

(** ** TransactionManager (TransactionManager.ts) *)

Section TransactionManagerMethods.

Variable txHash : Transaction -> PrefixedHexString.
Variable this : TransactionManager.

(** [tx.sign(privateKey)] leaves the signature in the transaction. *)
Definition signedWith (tx : Transaction) (raw : PrefixedHexString) : Transaction :=
  {| tx_to := tx_to tx; tx_value := tx_value tx; tx_gasLimit := tx_gasLimit tx;
     tx_gasPrice := tx_gasPrice tx; tx_data := tx_data tx; tx_nonce := tx_nonce tx;
     tx_options := tx_options tx; tx_raw := Some raw |}.

(** [_initNonces]: an entry for address 0 of each key manager. *)
Definition _initNonces (counters : gmap string Js.Number) : gmap string Js.Number :=
  <[getAddress (workersKeyManager this) 0%nat := Js.Num 0]>
    (<[getAddress (managerKeyManager this) 0%nat := Js.Num 0]> counters).

(** The state the constructor leaves, over a given store. *)
Definition constructed (store : TxStore.t) : State :=
  {| nonces := _initNonces ∅; txStoreManager := store |}.

(** [_init]: fails when the interactor has no raw transaction options. *)
Definition _init : Result string TransactionOptions :=
  match getRawTxOptions (contractInteractor this) with
  | Some options => Ok options
  | None => Err "_init failed for TransactionManager, was ContractInteractor properly initialized?"
  end.

Definition attemptEstimateGas (methodName : string) (method : Method)
    (sender : string) : M float :=
  tryCatch
    (estimate ← await MethodError (estimateGas method sender);
     mret (Js.Math_round (Js.parseInt estimate * estimateGasFactor (config this))%float))
    (fun _ => mret (defaultGasLimit (config this))).

Definition pollNonce (signer : string) : M (option Js.Number) :=
  n ← await ChainError
        (getTransactionCount (contractInteractor this) signer (Some "pending"));
  s ← getState;
  (if Js.gt n (nonces s !! signer) then setNonce signer (Js.Num n) else mret tt) ;;
  s' ← getState;
  mret (nonces s' !! signer).

(** The key manager both [sendTransaction] and [resendTransaction] sign
    with. *)
Definition keyManagerFor (signer : string) : KeyManager :=
  if isSigner (managerKeyManager this) signer
  then managerKeyManager this
  else workersKeyManager this.

(** The transaction [sendTransaction] builds. *)
Definition sendTxToSign (d : SendTransactionDetails) (_gasPrice : float)
    (n : option Js.Number) : Transaction :=
  let encodedCall := match sd_method d with
                     | Some method => encodeABI method
                     | None => "0x"
                     end in
  {| tx_to := sd_destination d;
     tx_value := Some (default "0x" (sd_value d));
     tx_gasLimit := sd_gasLimit d;
     tx_gasPrice := _gasPrice;
     tx_data := "0x" ++ Js.slice2 encodedCall;
     tx_nonce := n;
     tx_options := rawTxOptions this;
     tx_raw := None |}.

(** The body of the [try] block of [sendTransaction], which runs with the
    nonce mutex held. *)
Definition sendTransaction_locked (d : SendTransactionDetails) (_gasPrice : float)
    : M (PrefixedHexString * StoredTransaction) :=
  let signer := sd_signer d in
  n ← pollNonce signer;
  let txToSign := sendTxToSign d _gasPrice n in
  let keyManager := keyManagerFor signer in
  signedTx ← await KeyManagerError (signTransaction keyManager signer txToSign);
  let metadata := {| md_from := signer;
                     md_attempts := 1;
                     md_serverAction := sd_serverAction d;
                     md_creationBlockNumber := sd_creationBlockNumber d;
                     md_boostBlockNumber := None;
                     md_minedBlockNumber := None |} in
  let storedTx := createStoredTransaction txHash (signedWith txToSign signedTx) metadata in
  s ← getState;
  setNonce signer (Js.incr (nonces s !! signer)) ;;
  putTx storedTx false ;;
  mret (signedTx, storedTx).

(** The hash check that ends both [sendTransaction] and
    [resendTransaction]. *)
Definition checkHash (hash : PrefixedHexString) (signed : PrefixedHexString)
    (storedTx : StoredTransaction) : M SignedTransactionDetails :=
  if decide (Js.toLowerCase hash ≠ Js.toLowerCase (txId storedTx))
  then throw (TxHashMismatch hash (txId storedTx))
  else mret {| transactionHash := hash; signedTx := signed |}.

Definition sendTransaction (d : SendTransactionDetails) : M SignedTransactionDetails :=
  price ← match sd_gasPrice d with
          | Some p => mret p
          | None => await ChainError (getGasPrice (contractInteractor this))
          end;
  let _gasPrice := Js.parseInt price in
  '(signed, storedTx) ← sendTransaction_locked d _gasPrice;
  hash ← await ChainError (broadcastTransaction (contractInteractor this) signed);
  checkHash hash signed storedTx.

Definition updateTransactionWithMinedBlock (tx : StoredTransaction)
    (minedBlock : Z) : M unit :=
  putTx (withMinedBlockNumber tx minedBlock) true.

(** The metadata [updateTransactionWithAttempt] gives the new row. *)
Definition attemptMetadata (tx : StoredTransaction) (currentBlock : Z)
    : StoredTransactionMetadata :=
  {| md_from := from tx;
     md_attempts := attempts tx + 1;
     md_serverAction := serverAction tx;
     md_creationBlockNumber := creationBlockNumber tx;
     md_boostBlockNumber := Some currentBlock;
     md_minedBlockNumber := minedBlockNumber tx |}.

Definition updateTransactionWithAttempt (txToSign : Transaction)
    (tx : StoredTransaction) (currentBlock : Z) : M StoredTransaction :=
  let storedTx := createStoredTransaction txHash txToSign (attemptMetadata tx currentBlock) in
  putTx storedTx true ;;
  mret storedTx.

(** The transaction [resendTransaction] builds: no [value] is given. *)
Definition resendTxToSign (tx : StoredTransaction) (newGasPrice : float) : Transaction :=
  {| tx_to := to tx;
     tx_value := None;
     tx_gasLimit := gas tx;
     tx_gasPrice := newGasPrice;
     tx_data := data tx;
     tx_nonce := Some (Js.Num (nonce tx));
     tx_options := rawTxOptions this;
     tx_raw := None |}.

Definition resendTransaction (tx : StoredTransaction) (currentBlock : Z)
    (newGasPrice : float) (isMaxGasPriceReached : bool) : M SignedTransactionDetails :=
  let txToSign := resendTxToSign tx newGasPrice in
  let keyManager := keyManagerFor (from tx) in
  signed ← await KeyManagerError (signTransaction keyManager (from tx) txToSign);
  storedTx ← updateTransactionWithAttempt (signedWith txToSign signed) tx currentBlock;
  (* the count is only logged, but the call is awaited *)
  _ ← await ChainError (getTransactionCount (contractInteractor this) (from tx) None);
  hash ← await ChainError (broadcastTransaction (contractInteractor this) signed);
  checkHash hash signed storedTx.

Definition _resolveNewGasPrice (oldGasPrice : float) : float * bool :=
  let newGasPrice := (oldGasPrice * retryGasPriceFactor (config this))%float in
  if (Js.parseInt (maxGasPrice (config this)) <? newGasPrice)%float
  then (Js.parseInt (maxGasPrice (config this)), true)
  else (newGasPrice, false).

(** [shouldRecheck] of [removeConfirmedTransactions]: the row has no mined
    block yet, or the one it has is deep enough. *)
Definition shouldRecheck (blockNumber : Z) (transaction : StoredTransaction) : bool :=
  match minedBlockNumber transaction with
  | None => true
  | Some mined => confirmationsNeeded (config this) <=? blockNumber - mined
  end.

(** One turn of the loop of [removeConfirmedTransactions]. *)
Definition removeConfirmed_body (blockNumber : Z) (transaction : StoredTransaction)
    : M unit :=
  if shouldRecheck blockNumber transaction then
    receipt ← await ChainError (getTransaction (contractInteractor this) (txId transaction));
    match receipt with
    | None => mret tt
    | Some receipt =>
        match ct_blockNumber receipt with
        | None => mret tt
        | Some receiptBlock =>
            let confirmations := blockNumber - receiptBlock in
            let remove := removeTxsUntilNonce (ct_from receipt) (ct_nonce receipt) in
            if bool_decide (Some receiptBlock ≠ minedBlockNumber transaction) then
              if confirmations <? confirmationsNeeded (config this)
              then updateTransactionWithMinedBlock transaction receiptBlock
              else remove
            else remove
        end
    end
  else mret tt.

Definition removeConfirmedTransactions (blockNumber : Z) : M unit :=
  s ← getState;
  let sortedTxs := TxStore.getAll (txStoreManager s) in
  match sortedTxs with
  | [] => mret tt
  | _ => forEach sortedTxs (removeConfirmed_body blockNumber)
  end.

(** The loop of [boostUnderpricedPendingTransactionsForSigner] over the
    underpriced rows; [boosted] is the map built so far. *)
Fixpoint boostLoop (underpriced : list StoredTransaction) (currentBlockHeight : Z)
    (newGasPrice : float) (isMaxGasPriceReached : bool)
    (boosted : gmap PrefixedHexString SignedTransactionDetails)
    : M (gmap PrefixedHexString SignedTransactionDetails) :=
  match underpriced with
  | [] => mret boosted
  | transaction :: rest =>
      details ← resendTransaction transaction currentBlockHeight newGasPrice
                  isMaxGasPriceReached;
      boostLoop rest currentBlockHeight newGasPrice isMaxGasPriceReached
        (<[txId transaction := details]> boosted)
  end.

(** The rows [boostUnderpricedPendingTransactionsForSigner] resends. *)
Definition underpricedTransactions (sortedTxs : list StoredTransaction)
    (newGasPrice : float) : list StoredTransaction :=
  List.filter (fun it => (gasPrice it <? newGasPrice)%float) sortedTxs.

Definition boostUnderpricedPendingTransactionsForSigner (signer : string)
    (currentBlockHeight : Z) : M (gmap PrefixedHexString SignedTransactionDetails) :=
  s ← getState;
  let sortedTxs := TxStore.getAllBySigner signer (txStoreManager s) in
  match sortedTxs with
  | [] => mret ∅
  | oldestPendingTx :: _ =>
      n ← await ChainError (getTransactionCount (contractInteractor this) signer None);
      if nonce oldestPendingTx <? n then mret ∅
      else
        let lastSentAtBlockHeight :=
          default (creationBlockNumber oldestPendingTx)
                  (boostBlockNumber oldestPendingTx) in
        if currentBlockHeight - lastSentAtBlockHeight
             <? pendingTransactionTimeoutBlocks (config this)
        then mret ∅
        else
          let '(newGasPrice, isMaxGasPriceReached) :=
            _resolveNewGasPrice (gasPrice oldestPendingTx) in
          boostLoop (underpricedTransactions sortedTxs newGasPrice)
            currentBlockHeight newGasPrice isMaxGasPriceReached ∅
  end.

End TransactionManagerMethods.

(** ** A concrete setting, for the examples below *)

Module Sample.

Definition hashOf (tx : Transaction) : PrefixedHexString :=
  match tx_raw tx with
  | Some raw => "0xh" ++ Js.slice2 raw
  | None => "0x"
  end.

(** The raw bytes of a signed transaction: here the signer, the nonce and
    the destination, which is enough to tell two transactions apart. *)
Definition rawOf (signer : string) (tx : Transaction) : PrefixedHexString :=
  "0xf8" ++ Js.slice2 signer
    ++ match tx_nonce tx with
       | Some (Js.Num 5) => "05" | Some (Js.Num 6) => "06" | Some (Js.Num 7) => "07"
       | _ => "00"
       end
    ++ Js.slice2 (tx_to tx).

(** A key manager that signs for its own address and throws for any
    other. *)
Definition strictKeys (address : string) : KeyManager :=
  {| getAddress := fun _ => address;
     isSigner := fun a => String.eqb a address;
     signTransaction := fun a tx =>
       if String.eqb a address then Ok (rawOf a tx)
       else Err "Can't sign: signer is not managed" |}.

(** A key manager that answers [isSigner] for its own address only, and
    signs whatever it is handed. *)
Definition lenientKeys (address : string) : KeyManager :=
  {| getAddress := fun _ => address;
     isSigner := fun a => String.eqb a address;
     signTransaction := fun a tx => Ok (rawOf a tx) |}.

(** A node on which every account has sent [count] transactions, which
    echoes the hash of what it is given to broadcast, and which knows no
    transaction by hash. *)
Definition node (count : Z) : ContractInteractor :=
  {| getRawTxOptions := Some {| chainId := 33; hardfork := "istanbul" |};
     getGasPrice := Ok "60000000";
     getTransactionCount := fun _ _ => Ok count;
     broadcastTransaction := fun raw => Ok ("0xH" ++ Js.slice2 raw);
     getTransaction := fun _ => Ok None |}.

(** The same node, answering a broadcast with a hash of its own. *)
Definition lyingNode (count : Z) : ContractInteractor :=
  {| getRawTxOptions := getRawTxOptions (node count);
     getGasPrice := getGasPrice (node count);
     getTransactionCount := getTransactionCount (node count);
     broadcastTransaction := fun _ => Ok "0xdead";
     getTransaction := getTransaction (node count) |}.

(** The same node, knowing every hash as mined in [minedAt] by [sender]
    with nonce [n]. *)
Definition nodeWithReceipt (count : Z) (sender : string) (n : Z)
    (minedAt : option Z) : ContractInteractor :=
  {| getRawTxOptions := getRawTxOptions (node count);
     getGasPrice := getGasPrice (node count);
     getTransactionCount := getTransactionCount (node count);
     broadcastTransaction := broadcastTransaction (node count);
     getTransaction := fun _ =>
       Ok (Some {| ct_from := sender; ct_nonce := n; ct_blockNumber := minedAt |}) |}.

(** Retry factor 1.25, cap 100, 12 confirmations, timeout of 10 blocks. *)
Definition settings : ServerConfigParams :=
  {| estimateGasFactor := 1.25;
     defaultGasLimit := 500000;
     retryGasPriceFactor := 1.25;
     maxGasPrice := "100";
     confirmationsNeeded := 12;
     pendingTransactionTimeoutBlocks := 10 |}.

Definition manager (workers : KeyManager) (chain : ContractInteractor)
    : TransactionManager :=
  {| managerKeyManager := strictKeys "0xaa";
     workersKeyManager := workers;
     contractInteractor := chain;
     config := settings;
     rawTxOptions := {| chainId := 33; hardfork := "istanbul" |} |}.

(** A stored row of signer [0xbb] to [0xcc]. *)
Definition row (n : Z) (price : float) (created : Z) : StoredTransaction :=
  {| txId := "0xh" ++ (if n =? 5 then "05" else if n =? 6 then "06" else "07");
     from := "0xbb"; to := "0xcc"; gas := 21000; gasPrice := price;
     value := 3; data := "0x"; nonce := n; serverAction := ValueTransfer;
     attempts := 1; creationBlockNumber := created;
     boostBlockNumber := None; minedBlockNumber := None |}.


(** A state in which signer [0xbb] stands at nonce 5 and a row with that
    nonce is already stored. *)
Definition occupied : State :=
  {| nonces := {[ "0xbb" := Js.Num 5 ]}; txStoreManager := [row 5 10 100] |}.

(** A state holding the given rows, with no counters. *)
Definition holding (rows : list StoredTransaction) : State :=
  {| nonces := ∅; txStoreManager := rows |}.

Definition request (signer : string) : SendTransactionDetails :=
  {| sd_signer := signer; sd_serverAction := ValueTransfer; sd_method := None;
     sd_destination := "0xcc"; sd_value := None; sd_gasLimit := 21000;
     sd_gasPrice := Some "1000000000"; sd_creationBlockNumber := 100 |}.

Definition transfer : Method :=
  {| encodeABI := "0xa9059cbb"; estimateGas := fun _ => Ok "20001" |}.

Definition failing : Method :=
  {| encodeABI := "0xa9059cbb"; estimateGas := fun _ => Err "execution reverted" |}.

End Sample.

Import Sample.

(** ** Vocabulary for the statements *)

Definition withNonces (s : State) (counters : gmap string Js.Number) : State :=
  {| nonces := counters; txStoreManager := txStoreManager s |}.

Definition withStore (s : State) (store : TxStore.t) : State :=
  {| nonces := nonces s; txStoreManager := store |}.

(** The value [pollNonce] returns for a signer when the node reports [n]
    pending transactions: [n] after a nonce fix, the counter otherwise. *)
Definition polled (n : Z) (s : State) (signer : string) : option Js.Number :=
  if Js.gt n (nonces s !! signer) then Some (Js.Num n) else nonces s !! signer.

(** The state [pollNonce] leaves. *)
Definition afterPoll (n : Z) (s : State) (signer : string) : State :=
  if Js.gt n (nonces s !! signer)
  then withNonces s (<[signer := Js.Num n]> (nonces s))
  else s.

(** The block a row was last sent at. *)
Definition lastSentAt (tx : StoredTransaction) : Z :=
  default (creationBlockNumber tx) (boostBlockNumber tx).

(** The gas price a request is sent at, before [parseInt]: its own, or the
    one the node is asked for. *)
Definition priceOf (this : TransactionManager) (d : SendTransactionDetails)
    : Result string string :=
  match sd_gasPrice d with
  | Some p => Ok p
  | None => getGasPrice (contractInteractor this)
  end.

(** The row [sendTransaction] stores for a request sent at price [p], when
    the node reported [n] pending transactions and the key manager returned
    [signed]. *)
Definition sentRow (txHash : Transaction -> PrefixedHexString)
    (this : TransactionManager) (d : SendTransactionDetails) (p : string) (n : Z)
    (s : State) (signed : PrefixedHexString) : StoredTransaction :=
  createStoredTransaction txHash
    (signedWith (sendTxToSign this d (Js.parseInt p) (polled n s (sd_signer d))) signed)
    {| md_from := sd_signer d; md_attempts := 1;
       md_serverAction := sd_serverAction d;
       md_creationBlockNumber := sd_creationBlockNumber d;
       md_boostBlockNumber := None; md_minedBlockNumber := None |}.

(** The row [resendTransaction] replaces a stored row by. *)
Definition resentRow (txHash : Transaction -> PrefixedHexString)
    (this : TransactionManager) (tx : StoredTransaction) (currentBlock : Z)
    (newGasPrice : float) (signed : PrefixedHexString) : StoredTransaction :=
  createStoredTransaction txHash
    (signedWith (resendTxToSign this tx newGasPrice) signed)
    (attemptMetadata tx currentBlock).

(** A node that rejects every call. *)
Definition deadNode : ContractInteractor :=
  {| getRawTxOptions := None;
     getGasPrice := Err "connection refused";
     getTransactionCount := fun _ _ => Err "connection refused";
     broadcastTransaction := fun _ => Err "connection refused";
     getTransaction := fun _ => Err "connection refused" |}.

(** A node that answers the counts and rejects a broadcast. *)
Definition deafNode (count : Z) : ContractInteractor :=
  {| getRawTxOptions := getRawTxOptions (node count);
     getGasPrice := getGasPrice (node count);
     getTransactionCount := getTransactionCount (node count);
     broadcastTransaction := fun _ => Err "timeout";
     getTransaction := getTransaction (node count) |}.

(** A node that answers the pending count and rejects the latest one. *)
Definition pendingOnlyNode (count : Z) : ContractInteractor :=
  {| getRawTxOptions := getRawTxOptions (node count);
     getGasPrice := getGasPrice (node count);
     getTransactionCount := fun _ tag =>
       match tag with
       | Some _ => Ok count
       | None => Err "timeout"
       end;
     broadcastTransaction := broadcastTransaction (node count);
     getTransaction := getTransaction (node count) |}.

(** A state with an empty store in which signer [0xbb] stands at [c]. *)
Definition counting (c : Z) : State :=
  {| nonces := {[ "0xbb" := Js.Num c ]}; txStoreManager := [] |}.

(** A row as [row], with its mined block set. *)
Definition minedRow (n : Z) (price : float) (created mined : Z) : StoredTransaction :=
  withMinedBlockNumber (row n price created) mined.

(** * Properties *)

(** ** The store *)

Lemma string_compare_refl (s : string) : String.compare s s = Eq.
Proof.
  pose proof (String.compare_antisym s s) as H.
  destruct (String.compare s s); [reflexivity | discriminate | discriminate].
Qed.

Lemma compareKeys_refl (k : string * Z) : TxStore.compareKeys k k = Eq.
Proof.
  unfold TxStore.compareKeys.
  rewrite string_compare_refl. apply Z.compare_refl.
Qed.

Lemma compareKeys_eq (k1 k2 : string * Z) :
  TxStore.compareKeys k1 k2 = Eq -> k1 = k2.
Proof.
  destruct k1 as [f1 n1], k2 as [f2 n2]. unfold TxStore.compareKeys. simpl.
  destruct (String.compare f1 f2) eqn:Hf; try discriminate.
  intros Hn. apply String.compare_eq_iff in Hf. apply Z.compare_eq in Hn.
  congruence.
Qed.

Lemma compareKeys_ne (k1 k2 : string * Z) :
  k1 <> k2 -> TxStore.compareKeys k1 k2 <> Eq.
Proof. intros Hne Heq. apply Hne, compareKeys_eq, Heq. Qed.

(** Overwriting never fails. *)
Lemma putTx_replace_total (tx : StoredTransaction) (s : TxStore.t) :
  exists s', TxStore.putTx tx true s = Ok s'.
Proof.
  induction s as [|row rest IH]; simpl.
  - eauto.
  - destruct (TxStore.compareKeys (TxStore.key tx) (TxStore.key row)); eauto.
    destruct IH as [rest' ->]. eauto.
Qed.

(** After a successful [putTx] the row is the one stored under its key. *)
Lemma putTx_lookup (tx : StoredTransaction) (b : bool) (s s' : TxStore.t) :
  TxStore.putTx tx b s = Ok s' ->
  TxStore.lookup (TxStore.key tx) s' = Some tx.
Proof.
  revert s'. induction s as [|row rest IH]; simpl; intros s' H.
  - injection H as <-. simpl. now rewrite compareKeys_refl.
  - destruct (TxStore.compareKeys (TxStore.key tx) (TxStore.key row)) eqn:Hc.
    + destruct b; [|discriminate]. injection H as <-. simpl.
      now rewrite compareKeys_refl.
    + injection H as <-. simpl. now rewrite compareKeys_refl.
    + destruct (TxStore.putTx tx b rest) as [rest'|e]; [|discriminate].
      injection H as <-. simpl. rewrite Hc. now apply IH.
Qed.

(** [putTx] touches no other key. *)
Lemma putTx_lookup_other (tx : StoredTransaction) (b : bool) (s s' : TxStore.t)
    (k : string * Z) :
  TxStore.putTx tx b s = Ok s' ->
  k <> TxStore.key tx ->
  TxStore.lookup k s' = TxStore.lookup k s.
Proof.
  intros H Hk. revert s' H. induction s as [|row rest IH]; simpl; intros s' H.
  - injection H as <-. simpl.
    destruct (TxStore.compareKeys k (TxStore.key tx)) eqn:Hc; try reflexivity.
    now apply compareKeys_eq in Hc.
  - destruct (TxStore.compareKeys (TxStore.key tx) (TxStore.key row)) eqn:Hc.
    + destruct b; [|discriminate]. injection H as <-. simpl.
      apply compareKeys_eq in Hc. rewrite <- Hc.
      destruct (TxStore.compareKeys k (TxStore.key tx)) eqn:Hc'; try reflexivity.
      now apply compareKeys_eq in Hc'.
    + injection H as <-. simpl.
      destruct (TxStore.compareKeys k (TxStore.key tx)) eqn:Hc'; try reflexivity.
      now apply compareKeys_eq in Hc'.
    + destruct (TxStore.putTx tx b rest) as [rest'|e]; [|discriminate].
      injection H as <-. simpl.
      destruct (TxStore.compareKeys k (TxStore.key row)); auto.
Qed.

(** [putTx] removes nothing: a key that had a row still has one. *)
Lemma putTx_keeps_keys (tx : StoredTransaction) (b : bool) (s s' : TxStore.t)
    (k : string * Z) :
  TxStore.putTx tx b s = Ok s' ->
  is_Some (TxStore.lookup k s) -> is_Some (TxStore.lookup k s').
Proof.
  intros H Hs. destruct (decide (k = TxStore.key tx)) as [->|Hne].
  - rewrite (putTx_lookup _ _ _ _ H). eauto.
  - now rewrite (putTx_lookup_other _ _ _ _ _ H Hne).
Qed.

(** ** Running a method *)

(** The monad's operations unfold to plain case analysis on the outcome of
    the first step. *)
Lemma bind_run {A B} (m : M A) (f : A -> M B) (s : State) :
  (m ≫= f) s = match m s with
               | (Ok a, s') => f a s'
               | (Err e, s') => (Err e, s')
               end.
Proof. reflexivity. Qed.

Lemma ret_run {A} (a : A) (s : State) : (mret a : M A) s = (Ok a, s).
Proof. reflexivity. Qed.

Lemma await_run {A} (tag : string -> Error) (r : Result string A) (s : State) :
  await tag r s = match r with
                  | Ok a => (Ok a, s)
                  | Err message => (Err (tag message), s)
                  end.
Proof. destruct r; reflexivity. Qed.

Ltac run := repeat (rewrite ?bind_run, ?ret_run, ?await_run; cbn beta iota).

(** ** Gas estimation *)

(** C9. [attemptEstimateGas] always resolves and leaves the state alone:
    with [Math.round(parseInt(estimate) * estimateGasFactor)] when the
    method's gas estimation resolves to [estimate], and with
    [defaultGasLimit] when the estimation is rejected. *)
Theorem attemptEstimateGas_never_throws (this : TransactionManager)
    (methodName : string) (method : Method) (sender : string) (s : State) :
  attemptEstimateGas this methodName method sender s =
    (Ok match estimateGas method sender with
        | Ok estimate =>
            Js.Math_round (Js.parseInt estimate * estimateGasFactor (config this))%float
        | Err _ => defaultGasLimit (config this)
        end, s).
Proof.
  unfold attemptEstimateGas, tryCatch. run.
  destruct (estimateGas method sender); reflexivity.
Qed.

Example attemptEstimateGas_resolved :
  attemptEstimateGas (manager (strictKeys "0xbb") (node 5)) "transfer" transfer "0xbb"
    (constructed (manager (strictKeys "0xbb") (node 5)) [])
  = (Ok 25001%float, constructed (manager (strictKeys "0xbb") (node 5)) []).
Proof. reflexivity. Qed.

Example attemptEstimateGas_rejected :
  attemptEstimateGas (manager (strictKeys "0xbb") (node 5)) "transfer" failing "0xbb"
    (constructed (manager (strictKeys "0xbb") (node 5)) [])
  = (Ok 500000%float, constructed (manager (strictKeys "0xbb") (node 5)) []).
Proof. reflexivity. Qed.

(** ** Repricing *)

(** C4, as the specification words it, fails: the code does not round the
    product down.  With factor 1.25 and cap 100 an old price of 15 gives
    18.75, not 18. *)
Lemma resolveNewGasPrice_not_floored :
  let this := manager (strictKeys "0xbb") (node 5) in
  let product := (15 * retryGasPriceFactor (config this))%float in
  (Js.parseInt (maxGasPrice (config this)) <? product)%float = false /\
  _resolveNewGasPrice this 15 = (18.75%float, false) /\
  Js.Math_floor product = 18%float /\
  fst (_resolveNewGasPrice this 15) <> Js.Math_floor product.
Proof.
  repeat split; try reflexivity.
  intros H. apply (f_equal (fun x => PrimFloat.eqb x 18)) in H.
  vm_compute in H. discriminate.
Qed.

(** A float is never below itself. *)
Lemma SFcompare_refl_not_Lt (x : spec_float) : SFcompare x x <> Some Lt.
Proof.
  destruct x as [sign|sign| |sign m e]; simpl; try discriminate.
  - destruct sign; discriminate.
  - destruct sign; rewrite Z.compare_refl, Pos.compare_cont_refl; discriminate.
Qed.

Lemma float_ltb_irrefl (x : float) : (x <? x)%float = false.
Proof.
  rewrite ltb_spec. unfold SFltb.
  pose proof (SFcompare_refl_not_Lt (Prim2SF x)) as H.
  destruct (SFcompare (Prim2SF x) (Prim2SF x)) as [[]|]; congruence.
Qed.

(** C4. [_resolveNewGasPrice] returns the product
    [old * retryGasPriceFactor] itself, with no rounding, not capped, when
    the product does not exceed [maxGasPrice] (the comparison
    [max < product] is false), in particular when the two are equal; and
    returns [maxGasPrice], capped, when the product exceeds it. *)
Theorem resolveNewGasPrice_cases (this : TransactionManager) (old : float) :
  let product := (old * retryGasPriceFactor (config this))%float in
  let cap := Js.parseInt (maxGasPrice (config this)) in
  ((cap <? product)%float = false ->
     _resolveNewGasPrice this old = (product, false)) /\
  (product = cap ->
     _resolveNewGasPrice this old = (product, false)) /\
  ((cap <? product)%float = true ->
     _resolveNewGasPrice this old = (cap, true)).
Proof.
  unfold _resolveNewGasPrice. cbv zeta.
  split; [|split].
  - intros ->. reflexivity.
  - intros ->. now rewrite float_ltb_irrefl.
  - intros ->. reflexivity.
Qed.

Lemma resolveNewGasPrice_cases_witness :
  _resolveNewGasPrice (manager (strictKeys "0xbb") (node 5)) 40 = (50%float, false) /\
  _resolveNewGasPrice (manager (strictKeys "0xbb") (node 5)) 80 = (100%float, false) /\
  _resolveNewGasPrice (manager (strictKeys "0xbb") (node 5)) 90 = (100%float, true).
Proof.
  pose proof (resolveNewGasPrice_cases (manager (strictKeys "0xbb") (node 5))) as H.
  split; [|split].
  - apply (proj1 (H 40%float)). reflexivity.
  - apply (proj1 (proj2 (H 80%float))). reflexivity.
  - apply (proj2 (proj2 (H 90%float))). reflexivity.
Defined.

(** ** Nonce counters *)

Lemma withNonces_same (s : State) : withNonces s (nonces s) = s.
Proof. destruct s; reflexivity. Qed.

(** What [pollNonce] does once the node has answered. *)
Lemma pollNonce_run (this : TransactionManager) (signer : string) (s : State) (n : Z) :
  getTransactionCount (contractInteractor this) signer (Some "pending") = Ok n ->
  pollNonce this signer s = (Ok (polled n s signer), afterPoll n s signer).
Proof.
  intros Hn.
  unfold pollNonce, mbind, M_bind, await, getState, mret, M_ret, setNonce,
    polled, afterPoll.
  rewrite Hn.
  destruct (Js.gt n (nonces s !! signer)); [|reflexivity].
  cbn [nonces]. now rewrite lookup_insert_eq.
Qed.

Lemma pollNonce_rejected (this : TransactionManager) (signer : string) (s : State)
    (message : string) :
  getTransactionCount (contractInteractor this) signer (Some "pending") = Err message ->
  pollNonce this signer s = (Err (ChainError message), s).
Proof.
  intros Hn. unfold pollNonce, mbind, M_bind, await, throw. now rewrite Hn.
Qed.

(** C10. The constructor leaves exactly two counters, for address 0 of
    the manager's and of the workers' key manager.  For any other signer, and
    whatever pending count the node reports, the counter read by [pollNonce]
    is missing, the comparison that guards the nonce fix is false, and
    [pollNonce] returns the missing entry and changes nothing. *)
Theorem pollNonce_unknown_signer (this : TransactionManager) (store : TxStore.t)
    (signer : string) (n : Z) :
  signer <> getAddress (managerKeyManager this) 0%nat ->
  signer <> getAddress (workersKeyManager this) 0%nat ->
  getTransactionCount (contractInteractor this) signer (Some "pending") = Ok n ->
  dom (nonces (constructed this store))
    = {[ getAddress (workersKeyManager this) 0%nat;
         getAddress (managerKeyManager this) 0%nat ]} /\
  nonces (constructed this store) !! signer = None /\
  Js.gt n (nonces (constructed this store) !! signer) = false /\
  pollNonce this signer (constructed this store) = (Ok None, constructed this store).
Proof.
  intros Hm Hw Hn.
  assert (Hnone : nonces (constructed this store) !! signer = None).
  { simpl. unfold _initNonces.
    rewrite lookup_insert_ne by congruence.
    rewrite lookup_insert_ne by congruence.
    apply lookup_empty. }
  split; [|split; [exact Hnone|split]].
  - simpl. unfold _initNonces.
    now rewrite !dom_insert_L, dom_empty_L, (right_id_L ∅ (∪)).
  - now rewrite Hnone.
  - rewrite (pollNonce_run _ _ _ _ Hn). unfold polled, afterPoll.
    rewrite Hnone. reflexivity.
Qed.

Lemma pollNonce_unknown_signer_witness :
  pollNonce (manager (strictKeys "0xbb") (node 7)) "0xdd"
    (constructed (manager (strictKeys "0xbb") (node 7)) [])
  = (Ok None, constructed (manager (strictKeys "0xbb") (node 7)) []).
Proof.
  apply (pollNonce_unknown_signer (manager (strictKeys "0xbb") (node 7)) [] "0xdd" 7).
  - vm_compute. discriminate.
  - vm_compute. discriminate.
  - reflexivity.
Defined.

(** ** Sending *)

Section Send.

Variable txHash : Transaction -> PrefixedHexString.
Variable this : TransactionManager.

Lemma polled_afterPoll (n : Z) (s : State) (signer : string) :
  nonces (afterPoll n s signer) !! signer = polled n s signer.
Proof.
  unfold afterPoll, polled. destruct (Js.gt n (nonces s !! signer)); [|reflexivity].
  cbn [withNonces nonces]. apply lookup_insert_eq.
Qed.

Lemma afterPoll_store (n : Z) (s : State) (signer : string) :
  txStoreManager (afterPoll n s signer) = txStoreManager s.
Proof. unfold afterPoll. now destruct (Js.gt n (nonces s !! signer)). Qed.

Lemma afterPoll_incr (n : Z) (s : State) (signer : string) (c : Js.Number) :
  <[signer := c]> (nonces (afterPoll n s signer)) = <[signer := c]> (nonces s).
Proof.
  unfold afterPoll. destruct (Js.gt n (nonces s !! signer)); [|reflexivity].
  cbn [withNonces nonces]. apply insert_insert_eq.
Qed.

(** The critical section, step by step, once the node has answered the
    poll with [n]. *)
Lemma sendTransaction_locked_run (d : SendTransactionDetails) (price : float)
    (s : State) (n : Z) :
  getTransactionCount (contractInteractor this) (sd_signer d) (Some "pending") = Ok n ->
  sendTransaction_locked txHash this d price s =
    let signer := sd_signer d in
    let txToSign := sendTxToSign this d price (polled n s signer) in
    match signTransaction (keyManagerFor this signer) signer txToSign with
    | Err message => (Err (KeyManagerError message), afterPoll n s signer)
    | Ok signed =>
        let storedTx :=
          createStoredTransaction txHash (signedWith txToSign signed)
            {| md_from := signer; md_attempts := 1;
               md_serverAction := sd_serverAction d;
               md_creationBlockNumber := sd_creationBlockNumber d;
               md_boostBlockNumber := None; md_minedBlockNumber := None |} in
        let counters := <[signer := Js.incr (polled n s signer)]> (nonces s) in
        match TxStore.putTx storedTx false (txStoreManager s) with
        | Err e => (Err (StoreError e), withNonces s counters)
        | Ok store' => (Ok (signed, storedTx),
                        {| nonces := counters; txStoreManager := store' |})
        end
    end.
Proof.
  intros Hn. unfold sendTransaction_locked. cbv zeta.
  rewrite bind_run, (pollNonce_run _ _ _ _ Hn).
  rewrite bind_run, await_run.
  destruct (signTransaction _ _ _) as [signed|message]; [|reflexivity].
  unfold getState, setNonce, putTx, mbind, M_bind, mret, M_ret.
  cbn [nonces txStoreManager].
  rewrite polled_afterPoll, afterPoll_store, afterPoll_incr.
  destruct (TxStore.putTx _ false (txStoreManager s)); reflexivity.
Qed.

Lemma sendTransaction_locked_rejected (d : SendTransactionDetails) (price : float)
    (s : State) (message : string) :
  getTransactionCount (contractInteractor this) (sd_signer d) (Some "pending")
    = Err message ->
  sendTransaction_locked txHash this d price s = (Err (ChainError message), s).
Proof.
  intros Hn. unfold sendTransaction_locked. cbv zeta.
  now rewrite bind_run, (pollNonce_rejected _ _ _ _ Hn).
Qed.

(** [sendTransaction] after the gas price is known. *)
Lemma sendTransaction_run (d : SendTransactionDetails) (s : State) (p : string) :
  match sd_gasPrice d with
  | Some p' => Ok p'
  | None => getGasPrice (contractInteractor this)
  end = Ok p ->
  sendTransaction txHash this d s =
    match sendTransaction_locked txHash this d (Js.parseInt p) s with
    | (Ok (signed, storedTx), s1) =>
        match broadcastTransaction (contractInteractor this) signed with
        | Ok hash => checkHash hash signed storedTx s1
        | Err message => (Err (ChainError message), s1)
        end
    | (Err e, s1) => (Err e, s1)
    end.
Proof.
  intros Hp. unfold sendTransaction. rewrite bind_run.
  assert (Hprice : (match sd_gasPrice d with
                    | Some p' => mret p'
                    | None => await ChainError (getGasPrice (contractInteractor this))
                    end : M string) s = (Ok p, s)).
  { destruct (sd_gasPrice d).
    - now injection Hp as ->.
    - now rewrite await_run, Hp. }
  rewrite Hprice, bind_run.
  destruct (sendTransaction_locked txHash this d (Js.parseInt p) s)
    as [[[signed storedTx]|e] s1]; [|reflexivity].
  rewrite bind_run, await_run.
  now destruct (broadcastTransaction (contractInteractor this) signed).
Qed.

Lemma sendTransaction_no_price (d : SendTransactionDetails) (s : State)
    (message : string) :
  sd_gasPrice d = None ->
  getGasPrice (contractInteractor this) = Err message ->
  sendTransaction txHash this d s = (Err (ChainError message), s).
Proof.
  intros Hd Hp. unfold sendTransaction. now rewrite bind_run, Hd, await_run, Hp.
Qed.

(** The gas price a request is sent at: its own, or the node's. *)
Lemma price_cases (d : SendTransactionDetails) :
  (exists p, match sd_gasPrice d with
             | Some p' => Ok p'
             | None => getGasPrice (contractInteractor this)
             end = Ok p) \/
  (exists message, sd_gasPrice d = None /\
                   getGasPrice (contractInteractor this) = Err message).
Proof.
  destruct (sd_gasPrice d); [left; eauto|].
  destruct (getGasPrice (contractInteractor this)); [left|right]; eauto.
Qed.

(** A critical section that completes has stored its row. *)
Lemma sendTransaction_locked_stored (d : SendTransactionDetails) (price : float)
    (s s1 : State) (signed : PrefixedHexString) (storedTx : StoredTransaction) :
  sendTransaction_locked txHash this d price s = (Ok (signed, storedTx), s1) ->
  TxStore.lookup (TxStore.key storedTx) (txStoreManager s1) = Some storedTx.
Proof.
  destruct (getTransactionCount (contractInteractor this) (sd_signer d) (Some "pending"))
    as [n|message] eqn:Hn.
  - rewrite (sendTransaction_locked_run _ _ _ _ Hn). cbv zeta.
    destruct (signTransaction _ _ _) as [raw|?]; [|discriminate].
    destruct (TxStore.putTx _ false (txStoreManager s)) as [store'|?] eqn:Hput;
      [|discriminate].
    intros H. injection H as <- <- <-. cbn [txStoreManager].
    exact (putTx_lookup _ _ _ _ Hput).
  - rewrite (sendTransaction_locked_rejected _ _ _ _ Hn). discriminate.
Qed.

(** C1. When [sendTransaction] fails because [putTx] failed, the store is
    as it was, and the signer's counter has already been incremented: it is
    one more than the nonce polled for the transaction (the pending count
    [n] of the node after a nonce fix, the counter before the call
    otherwise). *)
Theorem send_failed_put_counter (d : SendTransactionDetails) (s s' : State)
    (e : TxStore.StoreError) :
  sendTransaction txHash this d s = (Err (StoreError e), s') ->
  exists n,
    getTransactionCount (contractInteractor this) (sd_signer d) (Some "pending") = Ok n /\
    nonces s' = <[sd_signer d := Js.incr (polled n s (sd_signer d))]> (nonces s) /\
    txStoreManager s' = txStoreManager s.
Proof.
  destruct (price_cases d) as [[p Hp]|[message [Hd Hp]]].
  2: { rewrite (sendTransaction_no_price _ _ _ Hd Hp). discriminate. }
  rewrite (sendTransaction_run _ _ _ Hp).
  destruct (getTransactionCount (contractInteractor this) (sd_signer d) (Some "pending"))
    as [n|message] eqn:Hn.
  2: { rewrite (sendTransaction_locked_rejected _ _ _ _ Hn). discriminate. }
  rewrite (sendTransaction_locked_run _ _ _ _ Hn). cbv zeta.
  destruct (signTransaction _ _ _) as [raw|?]; [|discriminate].
  destruct (TxStore.putTx _ false (txStoreManager s)) as [store'|e'].
  - destruct (broadcastTransaction (contractInteractor this) raw); [|discriminate].
    unfold checkHash. case_decide; discriminate.
  - intros H. injection H as _ <-. exists n. auto.
Qed.


(** C6. [sendTransaction] fails with the hash mismatch exactly when the
    hash the node answers the broadcast with differs, case apart, from the
    [txId] of the row it stored; the row is then still in the store as it
    was written.  When [sendTransaction] succeeds, the hash it returns is
    the stored [txId] up to case. *)
Theorem send_hash_check (d : SendTransactionDetails) (s : State) :
  (forall p signed storedTx s1 hash,
      match sd_gasPrice d with
      | Some p' => Ok p'
      | None => getGasPrice (contractInteractor this)
      end = Ok p ->
      sendTransaction_locked txHash this d (Js.parseInt p) s = (Ok (signed, storedTx), s1) ->
      broadcastTransaction (contractInteractor this) signed = Ok hash ->
      TxStore.lookup (TxStore.key storedTx) (txStoreManager s1) = Some storedTx /\
      (Js.toLowerCase hash <> Js.toLowerCase (txId storedTx) ->
         sendTransaction txHash this d s
           = (Err (TxHashMismatch hash (txId storedTx)), s1)) /\
      (Js.toLowerCase hash = Js.toLowerCase (txId storedTx) ->
         sendTransaction txHash this d s
           = (Ok {| transactionHash := hash; signedTx := signed |}, s1))) /\
  (forall a b s',
      sendTransaction txHash this d s = (Err (TxHashMismatch a b), s') ->
      exists signed storedTx,
        broadcastTransaction (contractInteractor this) signed = Ok a /\
        txId storedTx = b /\
        Js.toLowerCase a <> Js.toLowerCase b /\
        TxStore.lookup (TxStore.key storedTx) (txStoreManager s') = Some storedTx) /\
  (forall r s',
      sendTransaction txHash this d s = (Ok r, s') ->
      exists storedTx,
        broadcastTransaction (contractInteractor this) (signedTx r)
          = Ok (transactionHash r) /\
        Js.toLowerCase (transactionHash r) = Js.toLowerCase (txId storedTx) /\
        TxStore.lookup (TxStore.key storedTx) (txStoreManager s') = Some storedTx).
Proof.
  split; [|split].
  - intros p signed storedTx s1 hash Hp Hlocked Hcast.
    rewrite (sendTransaction_run _ _ _ Hp), Hlocked, Hcast. unfold checkHash.
    split; [exact (sendTransaction_locked_stored _ _ _ _ _ _ Hlocked)|].
    split; intros Hcmp; case_decide; first [reflexivity | tauto].
  - intros a b s'.
    destruct (price_cases d) as [[p Hp]|[message [Hd Hp]]].
    2: { rewrite (sendTransaction_no_price _ _ _ Hd Hp). discriminate. }
    rewrite (sendTransaction_run _ _ _ Hp).
    destruct (sendTransaction_locked txHash this d (Js.parseInt p) s)
      as [[[signed storedTx]|e] s1] eqn:Hlocked.
    + destruct (broadcastTransaction (contractInteractor this) signed) as [hash|?] eqn:Hcast;
        [|discriminate].
      unfold checkHash. case_decide as Hcmp; [|discriminate].
      intros H. injection H as <- <- <-. exists signed, storedTx.
      eauto using sendTransaction_locked_stored.
    + intros H. injection H as -> <-. revert Hlocked.
      destruct (getTransactionCount (contractInteractor this) (sd_signer d)
                  (Some "pending")) as [n|message] eqn:Hn.
      * rewrite (sendTransaction_locked_run _ _ _ _ Hn). cbv zeta.
        destruct (signTransaction _ _ _); [|discriminate].
        destruct (TxStore.putTx _ false (txStoreManager s)); discriminate.
      * rewrite (sendTransaction_locked_rejected _ _ _ _ Hn). discriminate.
  - intros r s'.
    destruct (price_cases d) as [[p Hp]|[message [Hd Hp]]].
    2: { rewrite (sendTransaction_no_price _ _ _ Hd Hp). discriminate. }
    rewrite (sendTransaction_run _ _ _ Hp).
    destruct (sendTransaction_locked txHash this d (Js.parseInt p) s)
      as [[[signed storedTx]|e] s1] eqn:Hlocked; [|discriminate].
    destruct (broadcastTransaction (contractInteractor this) signed) as [hash|?] eqn:Hcast;
      [|discriminate].
    unfold checkHash. case_decide as Hcmp; [discriminate|].
    intros H. injection H as <- <-. exists storedTx. cbn [signedTx transactionHash].
    split; [exact Hcast|split].
    + now destruct (decide (Js.toLowerCase hash = Js.toLowerCase (txId storedTx))).
    + exact (sendTransaction_locked_stored _ _ _ _ _ _ Hlocked).
Qed.

End Send.

(** C1, as the specification words it, fails: with signer [0xbb] at
    counter 5, a pending count of 5 and a row already stored under nonce 5,
    [putTx] rejects the new row, and the counter is 6 afterwards. *)
Lemma send_failed_put_moves_counter :
  let this := manager (strictKeys "0xbb") (node 5) in
  let result := sendTransaction hashOf this (request "0xbb") occupied in
  fst result = Err (StoreError (TxStore.DuplicateNonce "0xbb" 5)) /\
  nonces occupied !! "0xbb" = Some (Js.Num 5) /\
  nonces (snd result) !! "0xbb" = Some (Js.Num 6) /\
  nonces (snd result) !! "0xbb" <> nonces occupied !! "0xbb".
Proof. vm_compute. repeat split; discriminate. Qed.

Lemma send_failed_put_counter_witness :
  let this := manager (strictKeys "0xbb") (node 5) in
  exists n,
    getTransactionCount (contractInteractor this) "0xbb" (Some "pending") = Ok n /\
    nonces (snd (sendTransaction hashOf this (request "0xbb") occupied))
      = <["0xbb" := Js.incr (polled n occupied "0xbb")]> (nonces occupied) /\
    txStoreManager (snd (sendTransaction hashOf this (request "0xbb") occupied))
      = txStoreManager occupied.
Proof.
  apply (send_failed_put_counter hashOf (manager (strictKeys "0xbb") (node 5))
           (request "0xbb") occupied
           (snd (sendTransaction hashOf (manager (strictKeys "0xbb") (node 5))
                   (request "0xbb") occupied))
           (TxStore.DuplicateNonce "0xbb" 5)).
  vm_compute. reflexivity.
Defined.



Lemma send_hash_check_witness :
  let this := manager (strictKeys "0xbb") (lyingNode 5) in
  exists signed storedTx,
    broadcastTransaction (contractInteractor this) signed = Ok "0xdead" /\
    txId storedTx = "0xhf8bb05cc" /\
    Js.toLowerCase "0xdead" <> Js.toLowerCase "0xhf8bb05cc" /\
    TxStore.lookup (TxStore.key storedTx)
      (txStoreManager (snd (sendTransaction hashOf this (request "0xbb")
                              (constructed this []))))
      = Some storedTx.
Proof.
  apply (proj1 (proj2 (send_hash_check hashOf (manager (strictKeys "0xbb") (lyingNode 5))
                         (request "0xbb")
                         (constructed (manager (strictKeys "0xbb") (lyingNode 5)) [])))
           "0xdead" "0xhf8bb05cc").
  vm_compute. reflexivity.
Defined.

(** A send on a fresh manager: the node reports 5 pending transactions,
    so the row is stored with nonce 5 and the counter moves on to 6. *)
Example send_happy_path :
  let this := manager (strictKeys "0xbb") (node 5) in
  let result := sendTransaction hashOf this (request "0xbb") (constructed this []) in
  fst result = Ok {| transactionHash := "0xHf8bb05cc"; signedTx := "0xf8bb05cc" |} /\
  nonces (snd result) !! "0xbb" = Some (Js.Num 6) /\
  txStoreManager (snd result)
    = [ {| txId := "0xhf8bb05cc"; from := "0xbb"; to := "0xcc"; gas := 21000;
           gasPrice := 1000000000; value := 0; data := "0x"; nonce := 5;
           serverAction := ValueTransfer; attempts := 1;
           creationBlockNumber := 100; boostBlockNumber := None;
           minedBlockNumber := None |} ].
Proof. vm_compute. repeat split. Qed.

(** A nonce fix: the counter stands at 3, the node reports 7. *)
Example send_nonce_fix :
  let this := manager (strictKeys "0xbb") (node 7) in
  let s := {| nonces := {[ "0xbb" := Js.Num 3 ]}; txStoreManager := [] |} in
  pollNonce this "0xbb" s
    = (Ok (Some (Js.Num 7)), withNonces s {[ "0xbb" := Js.Num 7 ]}) /\
  nonces (snd (sendTransaction hashOf this (request "0xbb") s)) !! "0xbb"
    = Some (Js.Num 8).
Proof. vm_compute. repeat split. Qed.

(** ** Resending and boosting *)

Section Resend.

Variable txHash : Transaction -> PrefixedHexString.
Variable this : TransactionManager.

(** [resendTransaction], step by step, once the key manager has signed. *)
Lemma resendTransaction_run (tx : StoredTransaction) (currentBlock : Z)
    (newGasPrice : float) (capped : bool) (s : State) (signed : PrefixedHexString) :
  signTransaction (keyManagerFor this (from tx)) (from tx)
    (resendTxToSign this tx newGasPrice) = Ok signed ->
  let storedTx :=
    createStoredTransaction txHash
      (signedWith (resendTxToSign this tx newGasPrice) signed)
      (attemptMetadata tx currentBlock) in
  exists store',
    TxStore.putTx storedTx true (txStoreManager s) = Ok store' /\
    resendTransaction txHash this tx currentBlock newGasPrice capped s =
      match getTransactionCount (contractInteractor this) (from tx) None with
      | Err message => (Err (ChainError message), withStore s store')
      | Ok _ =>
          match broadcastTransaction (contractInteractor this) signed with
          | Err message => (Err (ChainError message), withStore s store')
          | Ok hash => checkHash hash signed storedTx (withStore s store')
          end
      end.
Proof.
  intros Hsign storedTx.
  destruct (putTx_replace_total storedTx (txStoreManager s)) as [store' Hput].
  exists store'. split; [exact Hput|].
  unfold resendTransaction. cbv zeta.
  rewrite bind_run, await_run, Hsign.
  unfold updateTransactionWithAttempt. cbv zeta.
  fold storedTx. rewrite !bind_run. unfold putTx at 1. rewrite Hput.
  rewrite ret_run, bind_run, await_run.
  destruct (getTransactionCount (contractInteractor this) (from tx) None);
    [|reflexivity].
  rewrite bind_run, await_run.
  now destruct (broadcastTransaction (contractInteractor this) signed).
Qed.


(** Every row the loop resends is a key of the map it returns, and so is
    every key the map started with. *)
Lemma boostLoop_keys (underpriced : list StoredTransaction) (currentBlock : Z)
    (newGasPrice : float) (capped : bool) :
  forall (boosted m : gmap PrefixedHexString SignedTransactionDetails) (s s' : State),
    boostLoop txHash this underpriced currentBlock newGasPrice capped boosted s
      = (Ok m, s') ->
    (forall k, is_Some (boosted !! k) -> is_Some (m !! k)) /\
    (forall tx, In tx underpriced -> is_Some (m !! txId tx)).
Proof.
  induction underpriced as [|tx rest IH]; intros boosted m s s'; simpl.
  - rewrite ret_run. intros H. injection H as <- <-. split; [auto|contradiction].
  - rewrite bind_run.
    destruct (resendTransaction txHash this tx currentBlock newGasPrice capped s)
      as [[details|e] s1]; [|discriminate].
    intros H. destruct (IH _ _ _ _ H) as [Hkeep Hrest].
    assert (Hnew : forall k, is_Some (boosted !! k)
                     -> is_Some (<[txId tx := details]> boosted !! k)).
    { intros k Hk. destruct (decide (txId tx = k)) as [<-|Hne].
      - rewrite lookup_insert_eq. eauto.
      - now rewrite lookup_insert_ne. }
    split; [auto|].
    intros tx' [<-|Hin]; [|auto].
    apply Hkeep. rewrite lookup_insert_eq. eauto.
Qed.

(** [boostUnderpricedPendingTransactionsForSigner] on a signer with rows,
    once the node has answered with its latest count. *)
Lemma boost_run (signer : string) (currentBlock : Z) (s : State)
    (oldest : StoredTransaction) (rest : list StoredTransaction) (n : Z) :
  TxStore.getAllBySigner signer (txStoreManager s) = oldest :: rest ->
  getTransactionCount (contractInteractor this) signer None = Ok n ->
  boostUnderpricedPendingTransactionsForSigner txHash this signer currentBlock s =
    if nonce oldest <? n then (Ok ∅, s)
    else if currentBlock - lastSentAt oldest
              <? pendingTransactionTimeoutBlocks (config this)
    then (Ok ∅, s)
    else boostLoop txHash this
           (underpricedTransactions (oldest :: rest)
              (fst (_resolveNewGasPrice this (gasPrice oldest))))
           currentBlock
           (fst (_resolveNewGasPrice this (gasPrice oldest)))
           (snd (_resolveNewGasPrice this (gasPrice oldest))) ∅ s.
Proof.
  intros Hrows Hn. unfold boostUnderpricedPendingTransactionsForSigner.
  rewrite bind_run. unfold getState at 1. cbn beta iota.
  rewrite Hrows, bind_run, await_run, Hn. fold (lastSentAt oldest).
  destruct (nonce oldest <? n); [reflexivity|].
  destruct (currentBlock - lastSentAt oldest
              <? pendingTransactionTimeoutBlocks (config this)); [reflexivity|].
  now destruct (_resolveNewGasPrice this (gasPrice oldest)).
Qed.

End Resend.


Section Boost.

Variable txHash : Transaction -> PrefixedHexString.
Variable this : TransactionManager.

(** C3. When the three guards pass and the oldest row's gas price is
    below the new gas price computed from it, the rows resent are the
    oldest row followed by the underpriced rows among the others, and a map
    returned by the call has the oldest row's [txId] among its keys.  When
    the oldest row's gas price is not below the new gas price, the oldest
    row is not among the rows resent. *)
Theorem boost_includes_oldest (signer : string) (currentBlock : Z) (s : State)
    (oldest : StoredTransaction) (rest : list StoredTransaction) (n : Z) :
  TxStore.getAllBySigner signer (txStoreManager s) = oldest :: rest ->
  getTransactionCount (contractInteractor this) signer None = Ok n ->
  n <= nonce oldest ->
  pendingTransactionTimeoutBlocks (config this) <= currentBlock - lastSentAt oldest ->
  let newGasPrice := fst (_resolveNewGasPrice this (gasPrice oldest)) in
  let capped := snd (_resolveNewGasPrice this (gasPrice oldest)) in
  ((gasPrice oldest <? newGasPrice)%float = true ->
     boostUnderpricedPendingTransactionsForSigner txHash this signer currentBlock s
       = boostLoop txHash this (oldest :: underpricedTransactions rest newGasPrice)
           currentBlock newGasPrice capped ∅ s /\
     forall m s',
       boostUnderpricedPendingTransactionsForSigner txHash this signer currentBlock s
         = (Ok m, s') ->
       is_Some (m !! txId oldest)) /\
  ((gasPrice oldest <? newGasPrice)%float = false ->
     boostUnderpricedPendingTransactionsForSigner txHash this signer currentBlock s
       = boostLoop txHash this (underpricedTransactions rest newGasPrice)
           currentBlock newGasPrice capped ∅ s).
Proof.
  intros Hrows Hn Hnonce Htimeout newGasPrice capped.
  rewrite (boost_run txHash this _ _ _ _ _ _ Hrows Hn).
  replace (nonce oldest <? n) with false by (symmetry; apply Z.ltb_ge; lia).
  replace (currentBlock - lastSentAt oldest
             <? pendingTransactionTimeoutBlocks (config this))
    with false by (symmetry; apply Z.ltb_ge; lia).
  fold newGasPrice capped. unfold underpricedTransactions. cbn [List.filter].
  split; intros ->; [split; [reflexivity|]|reflexivity].
  intros m s' H. apply (boostLoop_keys txHash this _ _ _ _ _ _ _ _ H). now left.
Qed.

(** C5. With no rows for the signer the call returns the empty map and
    changes nothing.  With rows, and the latest count [n] of the node known:
    it returns the empty map and changes nothing when the oldest nonce is
    below [n], and when the current block is less than the timeout past the
    block the oldest row was last sent at; from a distance equal to the
    timeout on (the oldest nonce not below [n]) it goes on to the boost
    loop; and it returns the empty map with the state unchanged exactly when
    one of those two guards holds or no row is underpriced. *)
Theorem boost_empty_cases (signer : string) (currentBlock : Z) (s : State) :
  (TxStore.getAllBySigner signer (txStoreManager s) = [] ->
   boostUnderpricedPendingTransactionsForSigner txHash this signer currentBlock s
     = (Ok ∅, s)) /\
  (forall oldest rest n,
      TxStore.getAllBySigner signer (txStoreManager s) = oldest :: rest ->
      getTransactionCount (contractInteractor this) signer None = Ok n ->
      let timeout := pendingTransactionTimeoutBlocks (config this) in
      let newGasPrice := fst (_resolveNewGasPrice this (gasPrice oldest)) in
      let capped := snd (_resolveNewGasPrice this (gasPrice oldest)) in
      let underpriced := underpricedTransactions (oldest :: rest) newGasPrice in
      let result :=
        boostUnderpricedPendingTransactionsForSigner txHash this signer currentBlock s in
      (nonce oldest < n -> result = (Ok ∅, s)) /\
      (currentBlock - lastSentAt oldest < timeout -> result = (Ok ∅, s)) /\
      (n <= nonce oldest -> timeout <= currentBlock - lastSentAt oldest ->
         result = boostLoop txHash this underpriced currentBlock newGasPrice capped ∅ s) /\
      (result = (Ok ∅, s) <->
         nonce oldest < n \/ currentBlock - lastSentAt oldest < timeout
         \/ underpriced = [])).
Proof.
  split.
  - intros Hrows. unfold boostUnderpricedPendingTransactionsForSigner.
    rewrite bind_run. unfold getState. cbn beta iota. now rewrite Hrows.
  - intros oldest rest n Hrows Hn timeout newGasPrice capped underpriced result.
    unfold result. rewrite (boost_run txHash this _ _ _ _ _ _ Hrows Hn).
    fold timeout newGasPrice capped underpriced.
    destruct (Z.ltb_spec (nonce oldest) n) as [Hlt|Hge].
    { repeat split; auto; lia. }
    destruct (Z.ltb_spec (currentBlock - lastSentAt oldest) timeout) as [Hlt'|Hge'].
    { repeat split; auto; lia. }
    split; [lia|split; [lia|split; [reflexivity|]]].
    split.
    + intros H. right. right.
      destruct underpriced as [|tx more]; [reflexivity|].
      destruct (boostLoop_keys txHash this _ _ _ _ _ _ _ _ H) as [_ Hin].
      destruct (Hin tx (or_introl eq_refl)) as [details Hdetails].
      now rewrite lookup_empty in Hdetails.
    + intros [Hlt|[Hlt|Hnil]]; [lia|lia|].
      unfold underpriced in Hnil |- *. now rewrite Hnil.
Qed.

End Boost.

(** Boost after the timeout, with a retry factor of 1.2 (the binary64
    nearest to it): of three rows priced 10, 15 and 30, only the first is
    below the new price of 12 and is resent. *)
Example boost_after_timeout :
  let this :=
    {| managerKeyManager := strictKeys "0xaa";
       workersKeyManager := strictKeys "0xbb";
       contractInteractor := node 5;
       config := {| estimateGasFactor := 1;
                    defaultGasLimit := 500000;
                    retryGasPriceFactor := 0x1.3333333333333p+0;
                    maxGasPrice := "100";
                    confirmationsNeeded := 12;
                    pendingTransactionTimeoutBlocks := 10 |};
       rawTxOptions := {| chainId := 33; hardfork := "istanbul" |} |} in
  let s := holding [row 5 10 100; row 6 15 100; row 7 30 100] in
  let result := boostUnderpricedPendingTransactionsForSigner hashOf this "0xbb" 110 s in
  _resolveNewGasPrice this 10 = (12%float, false) /\
  fst result
    = Ok {[ "0xh05" := {| transactionHash := "0xHf8bb05cc"; signedTx := "0xf8bb05cc" |} ]} /\
  txStoreManager (snd result)
    = [ {| txId := "0xhf8bb05cc"; from := "0xbb"; to := "0xcc"; gas := 21000;
           gasPrice := 12; value := 0; data := "0x"; nonce := 5;
           serverAction := ValueTransfer; attempts := 2;
           creationBlockNumber := 100; boostBlockNumber := Some 110;
           minedBlockNumber := None |};
        row 6 15 100; row 7 30 100 ].
Proof. vm_compute. repeat split. Qed.

(** C3, as the specification words it, fails: an oldest row already at
    the cap passes the three guards and is not resent, while the cheaper
    rows after it are. *)
Lemma boost_skips_capped_oldest :
  let this := manager (strictKeys "0xbb") (node 5) in
  let s := holding [row 5 100 100; row 6 15 100; row 7 30 100] in
  let result := boostUnderpricedPendingTransactionsForSigner hashOf this "0xbb" 110 s in
  TxStore.getAllBySigner "0xbb" (txStoreManager s)
    = [row 5 100 100; row 6 15 100; row 7 30 100] /\
  getTransactionCount (contractInteractor this) "0xbb" None = Ok 5 /\
  (nonce (row 5 100 100) <? 5) = false /\
  (110 - lastSentAt (row 5 100 100) <? pendingTransactionTimeoutBlocks (config this))
    = false /\
  exists m,
    fst result = Ok m /\
    m !! txId (row 5 100 100) = None /\
    is_Some (m !! txId (row 6 15 100)) /\
    TxStore.lookup ("0xbb", 5) (txStoreManager (snd result)) = Some (row 5 100 100).
Proof.
  do 4 (split; [reflexivity|]).
  vm_compute. eexists. split; [reflexivity|].
  split; [reflexivity|]. split; [eauto|reflexivity].
Qed.

Lemma boost_includes_oldest_witness :
  let this := manager (strictKeys "0xbb") (node 5) in
  let s := holding [row 5 10 100; row 6 15 100; row 7 30 100] in
  let result := boostUnderpricedPendingTransactionsForSigner hashOf this "0xbb" 110 s in
  is_Some (match fst result with
           | Ok m => m
           | Err _ => ∅
           end !! txId (row 5 10 100)).
Proof.
  refine (proj2 (proj1 (boost_includes_oldest hashOf (manager (strictKeys "0xbb") (node 5))
                    "0xbb" 110 (holding [row 5 10 100; row 6 15 100; row 7 30 100])
                    (row 5 10 100) [row 6 15 100; row 7 30 100] 5
                    eq_refl eq_refl _ _) eq_refl)
            _ (snd (boostUnderpricedPendingTransactionsForSigner hashOf
                      (manager (strictKeys "0xbb") (node 5)) "0xbb" 110
                      (holding [row 5 10 100; row 6 15 100; row 7 30 100]))) _).
  - vm_compute. discriminate.
  - vm_compute. discriminate.
  - vm_compute. reflexivity.
Defined.

(** C5, as the specification words it, fails: a single row already at
    the cap passes the three guards, and the call still returns the empty
    map and leaves the store as it was. *)
Lemma boost_empty_past_the_guards :
  let this := manager (strictKeys "0xbb") (node 5) in
  let s := holding [row 5 100 100] in
  TxStore.getAllBySigner "0xbb" (txStoreManager s) = [row 5 100 100] /\
  getTransactionCount (contractInteractor this) "0xbb" None = Ok 5 /\
  (nonce (row 5 100 100) <? 5) = false /\
  (110 - lastSentAt (row 5 100 100) <? pendingTransactionTimeoutBlocks (config this))
    = false /\
  boostUnderpricedPendingTransactionsForSigner hashOf this "0xbb" 110 s = (Ok ∅, s).
Proof. repeat split. Qed.

Lemma boost_empty_cases_witness :
  let this := manager (strictKeys "0xbb") (node 5) in
  boostUnderpricedPendingTransactionsForSigner hashOf this "0xbb" 109
    (holding [row 5 10 100; row 6 15 100]) = (Ok ∅, holding [row 5 10 100; row 6 15 100]) /\
  boostUnderpricedPendingTransactionsForSigner hashOf this "0xbb" 110
    (holding [row 5 10 100; row 6 15 100])
  = boostLoop hashOf this [row 5 10 100] 110 12.5 false ∅
      (holding [row 5 10 100; row 6 15 100]).
Proof.
  pose proof (proj2 (boost_empty_cases hashOf (manager (strictKeys "0xbb") (node 5))
                       "0xbb" 109 (holding [row 5 10 100; row 6 15 100]))
                (row 5 10 100) [row 6 15 100] 5 eq_refl eq_refl) as H109.
  pose proof (proj2 (boost_empty_cases hashOf (manager (strictKeys "0xbb") (node 5))
                       "0xbb" 110 (holding [row 5 10 100; row 6 15 100]))
                (row 5 10 100) [row 6 15 100] 5 eq_refl eq_refl) as H110.
  split.
  - apply (proj1 (proj2 H109)). vm_compute. reflexivity.
  - apply (proj1 (proj2 (proj2 H110))); vm_compute; discriminate.
Defined.

(** ** Confirmation sweep *)

Section Reap.

Variable this : TransactionManager.

(** A turn of the loop that resolves without touching the state hands the
    same state to the rest of the loop. *)
Lemma forEach_skip {A} (body : A -> M unit) (x : A) (rest : list A) (s : State) :
  body x s = (Ok tt, s) ->
  forEach (x :: rest) body s = forEach rest body s.
Proof. intros H. simpl. now rewrite bind_run, H. Qed.


(** A turn of the loop on a row that is to be rechecked. *)
Lemma removeConfirmed_body_run (blockNumber : Z) (transaction : StoredTransaction)
    (s : State) :
  shouldRecheck this blockNumber transaction = true ->
  removeConfirmed_body this blockNumber transaction s =
    match getTransaction (contractInteractor this) (txId transaction) with
    | Err message => (Err (ChainError message), s)
    | Ok None => (Ok tt, s)
    | Ok (Some receipt) =>
        match ct_blockNumber receipt with
        | None => (Ok tt, s)
        | Some receiptBlock =>
            if bool_decide (Some receiptBlock ≠ minedBlockNumber transaction)
               && (blockNumber - receiptBlock <? confirmationsNeeded (config this))
            then putTx (withMinedBlockNumber transaction receiptBlock) true s
            else removeTxsUntilNonce (ct_from receipt) (ct_nonce receipt) s
        end
    end.
Proof.
  intros Hrecheck. unfold removeConfirmed_body. rewrite Hrecheck.
  rewrite bind_run, await_run.
  destruct (getTransaction (contractInteractor this) (txId transaction))
    as [[receipt|]|message]; try reflexivity.
  destruct (ct_blockNumber receipt) as [receiptBlock|]; [|reflexivity].
  cbv zeta.
  destruct (bool_decide (Some receiptBlock ≠ minedBlockNumber transaction));
    [|reflexivity].
  now destruct (blockNumber - receiptBlock <? confirmationsNeeded (config this)).
Qed.


End Reap.


Example reap_updates_mined_block :
  let this := manager (strictKeys "0xbb") (nodeWithReceipt 8 "0xbb" 7 (Some 100)) in
  removeConfirmedTransactions this 111 (holding [row 7 30 100])
  = (Ok tt, holding [withMinedBlockNumber (row 7 30 100) 100]).
Proof. reflexivity. Qed.

Example reap_prunes_prefix :
  let this := manager (strictKeys "0xbb") (nodeWithReceipt 8 "0xbb" 7 (Some 100)) in
  removeConfirmedTransactions this 112
    (holding [row 5 10 100; row 6 15 100; row 7 30 100])
  = (Ok tt, holding []).
Proof. reflexivity. Qed.

(** * Further properties *)

(** ** Repricing and polling *)

(** X1. The price [_resolveNewGasPrice] returns is never above [maxGasPrice],
    whatever the old price and the factor are, and the flag is set exactly
    when the product was above it. *)
Theorem resolveNewGasPrice_never_above_cap (this : TransactionManager) (old : float) :
  let cap := Js.parseInt (maxGasPrice (config this)) in
  (cap <? fst (_resolveNewGasPrice this old))%float = false /\
  snd (_resolveNewGasPrice this old)
    = (cap <? old * retryGasPriceFactor (config this))%float.
Proof.
  unfold _resolveNewGasPrice. cbv zeta.
  destruct (Js.parseInt (maxGasPrice (config this))
              <? old * retryGasPriceFactor (config this))%float eqn:Hcmp;
    cbn [fst snd]; split; try reflexivity.
  - apply float_ltb_irrefl.
  - exact Hcmp.
Qed.

(** X2. For a signer whose counter is a number, [pollNonce] returns the larger
    of the counter and the node's pending count and leaves the counter at
    that value; no other counter and no row changes. *)
Theorem pollNonce_known_signer (this : TransactionManager) (signer : string)
    (s : State) (c n : Z) :
  nonces s !! signer = Some (Js.Num c) ->
  getTransactionCount (contractInteractor this) signer (Some "pending") = Ok n ->
  exists s',
    pollNonce this signer s = (Ok (Some (Js.Num (Z.max c n))), s') /\
    nonces s' !! signer = Some (Js.Num (Z.max c n)) /\
    (forall other, other <> signer -> nonces s' !! other = nonces s !! other) /\
    txStoreManager s' = txStoreManager s.
Proof.
  intros Hc Hn. rewrite (pollNonce_run _ _ _ _ Hn).
  unfold polled, afterPoll. rewrite Hc. cbn [Js.gt].
  destruct (Z.ltb_spec c n) as [Hlt|Hge].
  - rewrite Z.max_r by lia. eexists. split; [reflexivity|].
    cbn [withNonces nonces txStoreManager].
    split; [apply lookup_insert_eq|]. split; [|reflexivity].
    intros other Hother. now rewrite lookup_insert_ne.
  - rewrite Z.max_l by lia. exists s. auto.
Qed.

Lemma pollNonce_known_signer_witness :
  let this := manager (strictKeys "0xbb") (node 7) in
  let s := {| nonces := {[ "0xbb" := Js.Num 3 ]}; txStoreManager := [] |} in
  exists s',
    pollNonce this "0xbb" s = (Ok (Some (Js.Num 7)), s') /\
    nonces s' !! "0xbb" = Some (Js.Num 7) /\
    (forall other, other <> "0xbb" -> nonces s' !! other = nonces s !! other) /\
    txStoreManager s' = txStoreManager s.
Proof.
  exact (pollNonce_known_signer (manager (strictKeys "0xbb") (node 7)) "0xbb"
           {| nonces := {[ "0xbb" := Js.Num 3 ]}; txStoreManager := [] |} 3 7
           eq_refl eq_refl).
Defined.

(** X3. After construction the counters of address 0 of both key managers stand
    at 0, so the first poll for either returns the node's pending count
    (0 when the node reports a negative one). *)
Theorem pollNonce_after_construction (this : TransactionManager) (store : TxStore.t)
    (signer : string) (n : Z) :
  signer = getAddress (managerKeyManager this) 0%nat
  \/ signer = getAddress (workersKeyManager this) 0%nat ->
  getTransactionCount (contractInteractor this) signer (Some "pending") = Ok n ->
  nonces (constructed this store) !! signer = Some (Js.Num 0) /\
  fst (pollNonce this signer (constructed this store)) = Ok (Some (Js.Num (Z.max 0 n))).
Proof.
  intros Hsigner Hn.
  assert (Hzero : nonces (constructed this store) !! signer = Some (Js.Num 0)).
  { cbn [constructed nonces]. unfold _initNonces.
    destruct (decide (getAddress (workersKeyManager this) 0%nat = signer)) as [->|Hw].
    - apply lookup_insert_eq.
    - rewrite lookup_insert_ne by exact Hw.
      destruct Hsigner as [->| ->]; [apply lookup_insert_eq|congruence]. }
  split; [exact Hzero|].
  rewrite (pollNonce_run _ _ _ _ Hn). cbn [fst]. unfold polled.
  rewrite Hzero. cbn [Js.gt].
  destruct (Z.ltb_spec 0 n); [rewrite Z.max_r by lia|rewrite Z.max_l by lia];
    reflexivity.
Qed.

Lemma pollNonce_after_construction_witness :
  let this := manager (strictKeys "0xbb") (node 7) in
  nonces (constructed this []) !! "0xbb" = Some (Js.Num 0) /\
  fst (pollNonce this "0xbb" (constructed this [])) = Ok (Some (Js.Num 7)).
Proof.
  exact (pollNonce_after_construction (manager (strictKeys "0xbb") (node 7)) [] "0xbb" 7
           (or_intror eq_refl) eq_refl).
Defined.

(** A counter that has become [NaN] is never repaired: whatever pending
    count the node reports, [pollNonce] returns [NaN] and changes nothing. *)
Lemma pollNonce_NaN_sticks (this : TransactionManager) (signer : string)
    (s : State) (n : Z) :
  nonces s !! signer = Some Js.NaN ->
  getTransactionCount (contractInteractor this) signer (Some "pending") = Ok n ->
  pollNonce this signer s = (Ok (Some Js.NaN), s).
Proof.
  intros Hc Hn. rewrite (pollNonce_run _ _ _ _ Hn).
  unfold polled, afterPoll. now rewrite Hc.
Qed.

(** ** More on sending *)

Section SendOutcomes.

Variable txHash : Transaction -> PrefixedHexString.
Variable this : TransactionManager.

(** Every way [sendTransaction] can end, in the order of its steps. *)
Lemma send_outcome (d : SendTransactionDetails) (s : State) :
  let signer := sd_signer d in
  let result := sendTransaction txHash this d s in
  (exists message, priceOf this d = Err message /\
                   result = (Err (ChainError message), s)) \/
  (exists p message,
      priceOf this d = Ok p /\
      getTransactionCount (contractInteractor this) signer (Some "pending")
        = Err message /\
      result = (Err (ChainError message), s)) \/
  (exists p n,
      priceOf this d = Ok p /\
      getTransactionCount (contractInteractor this) signer (Some "pending") = Ok n /\
      let txToSign := sendTxToSign this d (Js.parseInt p) (polled n s signer) in
      match signTransaction (keyManagerFor this signer) signer txToSign with
      | Err message => result = (Err (KeyManagerError message), afterPoll n s signer)
      | Ok signed =>
          let storedTx := sentRow txHash this d p n s signed in
          let counters := <[signer := Js.incr (polled n s signer)]> (nonces s) in
          match TxStore.putTx storedTx false (txStoreManager s) with
          | Err e => result = (Err (StoreError e), withNonces s counters)
          | Ok store' =>
              let s1 := {| nonces := counters; txStoreManager := store' |} in
              match broadcastTransaction (contractInteractor this) signed with
              | Err message => result = (Err (ChainError message), s1)
              | Ok hash => result = checkHash hash signed storedTx s1
              end
          end
      end).
Proof.
  intros signer result. unfold result, priceOf.
  destruct (price_cases this d) as [[p Hp]|[message [Hd Hp]]].
  2: { left. exists message. rewrite Hd. split; [exact Hp|].
       exact (sendTransaction_no_price txHash this _ _ _ Hd Hp). }
  right. rewrite (sendTransaction_run txHash this _ _ _ Hp).
  destruct (getTransactionCount (contractInteractor this) signer (Some "pending"))
    as [n|message] eqn:Hn.
  - right. exists p, n. split; [exact Hp|]. split; [reflexivity|].
    rewrite (sendTransaction_locked_run txHash this _ _ _ _ Hn). cbv zeta.
    fold signer. unfold sentRow. fold signer.
    destruct (signTransaction _ _ _) as [signed|message]; [|reflexivity].
    destruct (TxStore.putTx _ false (txStoreManager s)) as [store'|e]; [|reflexivity].
    destruct (broadcastTransaction (contractInteractor this) signed); reflexivity.
  - left. exists p, message. split; [exact Hp|]. split; [reflexivity|].
    now rewrite (sendTransaction_locked_rejected txHash this _ _ _ _ Hn).
Qed.

Lemma checkHash_state (hash signed : PrefixedHexString) (storedTx : StoredTransaction)
    (s : State) :
  snd (checkHash hash signed storedTx s) = s.
Proof. unfold checkHash. now case_decide. Qed.

Lemma checkHash_ok (hash signed : PrefixedHexString) (storedTx : StoredTransaction)
    (s s' : State) (r : SignedTransactionDetails) :
  checkHash hash signed storedTx s = (Ok r, s') ->
  r = {| transactionHash := hash; signedTx := signed |} /\ s' = s /\
  Js.toLowerCase hash = Js.toLowerCase (txId storedTx).
Proof.
  unfold checkHash. case_decide as Hcmp; [discriminate|].
  intros H. injection H as <- <-. repeat split.
  now destruct (decide (Js.toLowerCase hash = Js.toLowerCase (txId storedTx))).
Qed.

Lemma polled_num (n c : Z) (s : State) (signer : string) :
  nonces s !! signer = Some (Js.Num c) ->
  polled n s signer = Some (Js.Num (Z.max c n)).
Proof.
  intros Hc. unfold polled. rewrite Hc. cbn [Js.gt].
  destruct (Z.ltb_spec c n); [rewrite Z.max_r by lia|rewrite Z.max_l by lia];
    reflexivity.
Qed.

(** What a [sendTransaction] that resolved has done. *)
Lemma send_ok_inv (d : SendTransactionDetails) (s s' : State)
    (r : SignedTransactionDetails) :
  sendTransaction txHash this d s = (Ok r, s') ->
  exists p n,
    priceOf this d = Ok p /\
    getTransactionCount (contractInteractor this) (sd_signer d) (Some "pending") = Ok n /\
    signTransaction (keyManagerFor this (sd_signer d)) (sd_signer d)
      (sendTxToSign this d (Js.parseInt p) (polled n s (sd_signer d)))
      = Ok (signedTx r) /\
    TxStore.putTx (sentRow txHash this d p n s (signedTx r)) false (txStoreManager s)
      = Ok (txStoreManager s') /\
    nonces s' = <[sd_signer d := Js.incr (polled n s (sd_signer d))]> (nonces s) /\
    broadcastTransaction (contractInteractor this) (signedTx r) = Ok (transactionHash r).
Proof.
  intros H.
  destruct (send_outcome d s)
    as [[message [_ Hr]]|[[p [message [_ [_ Hr]]]]|[p [n [Hp [Hn Hr]]]]]];
    try (rewrite H in Hr; discriminate).
  cbv zeta in Hr. exists p, n. split; [exact Hp|]. split; [exact Hn|].
  destruct (signTransaction _ _ _) as [signed|message] eqn:Hsign;
    [|rewrite H in Hr; discriminate].
  destruct (TxStore.putTx _ false (txStoreManager s)) as [store'|e] eqn:Hput;
    [|rewrite H in Hr; discriminate].
  destruct (broadcastTransaction (contractInteractor this) signed) as [hash|message] eqn:Hcast;
    [|rewrite H in Hr; discriminate].
  rewrite H in Hr. symmetry in Hr.
  destruct (checkHash_ok _ _ _ _ _ _ Hr) as [-> [-> _]].
  cbn [signedTx transactionHash nonces txStoreManager]. auto.
Qed.

(** X4. A send that resolves, for a signer whose counter is the number [c], on
    a node reporting [n] pending transactions: the row is stored under the
    nonce [max c n] with one attempt and the request's destination, gas
    limit, parsed gas price, server action and creation block, not yet
    boosted or mined; the counter ends one past that nonce; and the hash
    returned is the one the node answered the broadcast with. *)
Theorem send_ok_effects (d : SendTransactionDetails) (s s' : State)
    (r : SignedTransactionDetails) (c n : Z) :
  nonces s !! sd_signer d = Some (Js.Num c) ->
  getTransactionCount (contractInteractor this) (sd_signer d) (Some "pending") = Ok n ->
  sendTransaction txHash this d s = (Ok r, s') ->
  nonces s' !! sd_signer d = Some (Js.Num (Z.max c n + 1)) /\
  broadcastTransaction (contractInteractor this) (signedTx r) = Ok (transactionHash r) /\
  exists p storedTx,
    priceOf this d = Ok p /\
    TxStore.lookup (sd_signer d, Z.max c n) (txStoreManager s') = Some storedTx /\
    from storedTx = sd_signer d /\ nonce storedTx = Z.max c n /\
    attempts storedTx = 1 /\
    to storedTx = sd_destination d /\ gas storedTx = sd_gasLimit d /\
    gasPrice storedTx = Js.parseInt p /\
    serverAction storedTx = sd_serverAction d /\
    creationBlockNumber storedTx = sd_creationBlockNumber d /\
    boostBlockNumber storedTx = None /\ minedBlockNumber storedTx = None.
Proof.
  intros Hc Hn H.
  destruct (send_ok_inv _ _ _ _ H) as [p [n' [Hp [Hn' [_ [Hput [Hcounters Hcast]]]]]]].
  rewrite Hn in Hn'. injection Hn' as <-.
  pose proof (polled_num n c s _ Hc) as Hpolled.
  split; [|split; [exact Hcast|]].
  - rewrite Hcounters, lookup_insert_eq, Hpolled. reflexivity.
  - exists p, (sentRow txHash this d p n s (signedTx r)).
    split; [exact Hp|].
    pose proof (putTx_lookup _ _ _ _ Hput) as Hlookup.
    unfold TxStore.key in Hlookup.
    assert (Hnonce : nonce (sentRow txHash this d p n s (signedTx r)) = Z.max c n).
    { unfold sentRow. cbn. now rewrite Hpolled. }
    rewrite Hnonce in Hlookup.
    split; [exact Hlookup|]. split; [reflexivity|]. split; [exact Hnonce|].
    repeat split.
Qed.

(** X5. A send for a signer that has no counter, once it resolves, has left
    the counter at [NaN]; from then on every poll for that signer returns
    [NaN] and repairs nothing, whatever the node reports. *)
Theorem send_without_counter_leaves_NaN (d : SendTransactionDetails) (s s' : State)
    (r : SignedTransactionDetails) :
  nonces s !! sd_signer d = None ->
  sendTransaction txHash this d s = (Ok r, s') ->
  nonces s' !! sd_signer d = Some Js.NaN /\
  (forall n,
      getTransactionCount (contractInteractor this) (sd_signer d) (Some "pending") = Ok n ->
      pollNonce this (sd_signer d) s' = (Ok (Some Js.NaN), s')).
Proof.
  intros Hc H.
  destruct (send_ok_inv _ _ _ _ H) as [p [n [_ [_ [_ [_ [Hcounters _]]]]]]].
  assert (Hpolled : polled n s (sd_signer d) = None).
  { unfold polled. now rewrite Hc. }
  assert (HNaN : nonces s' !! sd_signer d = Some Js.NaN).
  { rewrite Hcounters, lookup_insert_eq, Hpolled. reflexivity. }
  split; [exact HNaN|].
  intros n' Hn'. exact (pollNonce_NaN_sticks this _ _ n' HNaN Hn').
Qed.

(** X6. Whatever its outcome, [sendTransaction] changes no counter but the
    signer's, removes no row, and leaves every row of another sender as it
    was. *)
Theorem send_frame (d : SendTransactionDetails) (s : State) :
  let s' := snd (sendTransaction txHash this d s) in
  (forall other, other <> sd_signer d -> nonces s' !! other = nonces s !! other) /\
  (forall k, is_Some (TxStore.lookup k (txStoreManager s)) ->
             is_Some (TxStore.lookup k (txStoreManager s'))) /\
  (forall k, fst k <> sd_signer d ->
             TxStore.lookup k (txStoreManager s') = TxStore.lookup k (txStoreManager s)).
Proof.
  cbv zeta.
  assert (Hpoll : forall n other, other <> sd_signer d ->
            nonces (afterPoll n s (sd_signer d)) !! other = nonces s !! other).
  { intros n other Hother. unfold afterPoll.
    destruct (Js.gt n (nonces s !! sd_signer d)); [|reflexivity].
    cbn [withNonces nonces]. now rewrite lookup_insert_ne. }
  destruct (send_outcome d s)
    as [[message [_ Hr]]|[[p [message [_ [_ Hr]]]]|[p [n [Hp [Hn Hr]]]]]];
    try (rewrite Hr; cbn [snd]; now auto).
  cbv zeta in Hr.
  destruct (signTransaction _ _ _) as [signed|message].
  2: { rewrite Hr. cbn [snd]. rewrite afterPoll_store. now auto. }
  destruct (TxStore.putTx _ false (txStoreManager s)) as [store'|e] eqn:Hput.
  2: { rewrite Hr. cbn [snd withNonces nonces txStoreManager].
       split; [|now auto]. intros other Hother. now rewrite lookup_insert_ne. }
  assert (Hstate : snd (sendTransaction txHash this d s)
                   = {| nonces := <[sd_signer d := Js.incr (polled n s (sd_signer d))]>
                                    (nonces s);
                        txStoreManager := store' |}).
  { destruct (broadcastTransaction (contractInteractor this) signed);
      rewrite Hr; [apply checkHash_state|reflexivity]. }
  rewrite Hstate. cbn [nonces txStoreManager]. split; [|split].
  - intros other Hother. now rewrite lookup_insert_ne.
  - intros k Hk. exact (putTx_keeps_keys _ _ _ _ k Hput Hk).
  - intros k Hk. apply (putTx_lookup_other _ _ _ _ k Hput).
    intros ->. apply Hk. reflexivity.
Qed.

(** X7. A counter that is a number never goes down in a send, whatever its
    outcome. *)
Theorem send_counter_never_decreases (d : SendTransactionDetails) (s : State) (c : Z) :
  nonces s !! sd_signer d = Some (Js.Num c) ->
  exists c',
    nonces (snd (sendTransaction txHash this d s)) !! sd_signer d = Some (Js.Num c') /\
    c <= c'.
Proof.
  intros Hc.
  assert (Hpoll : forall n, exists c',
            nonces (afterPoll n s (sd_signer d)) !! sd_signer d = Some (Js.Num c')
            /\ c <= c').
  { intros n. rewrite polled_afterPoll, (polled_num n c s _ Hc).
    exists (Z.max c n). split; [reflexivity|lia]. }
  destruct (send_outcome d s)
    as [[message [_ Hr]]|[[p [message [_ [_ Hr]]]]|[p [n [Hp [Hn Hr]]]]]];
    try (rewrite Hr; cbn [snd]; exists c; split; [exact Hc|lia]).
  cbv zeta in Hr.
  destruct (signTransaction _ _ _) as [signed|message].
  2: { rewrite Hr. cbn [snd]. apply Hpoll. }
  assert (Hafter : nonces (snd (sendTransaction txHash this d s)) !! sd_signer d
                   = Some (Js.Num (Z.max c n + 1))).
  { destruct (TxStore.putTx _ false (txStoreManager s)) as [store'|e].
    - destruct (broadcastTransaction (contractInteractor this) signed);
        rewrite Hr; [rewrite checkHash_state|]; cbn [snd nonces];
        now rewrite lookup_insert_eq, (polled_num n c s _ Hc).
    - rewrite Hr. cbn [snd withNonces nonces].
      now rewrite lookup_insert_eq, (polled_num n c s _ Hc). }
  exists (Z.max c n + 1). split; [exact Hafter|lia].
Qed.

(** X8. When the key manager refuses to sign, the send fails with its error;
    the store is untouched and the counter is not incremented: it holds the
    polled nonce, that is, at most the nonce fix has been applied. *)
Theorem send_sign_refused (d : SendTransactionDetails) (s s' : State)
    (message : string) :
  sendTransaction txHash this d s = (Err (KeyManagerError message), s') ->
  exists n,
    getTransactionCount (contractInteractor this) (sd_signer d) (Some "pending") = Ok n /\
    s' = afterPoll n s (sd_signer d) /\
    nonces s' !! sd_signer d = polled n s (sd_signer d) /\
    txStoreManager s' = txStoreManager s.
Proof.
  intros H.
  destruct (send_outcome d s)
    as [[m [_ Hr]]|[[p [m [_ [_ Hr]]]]|[p [n [Hp [Hn Hr]]]]]];
    try (rewrite H in Hr; discriminate).
  cbv zeta in Hr. exists n. split; [exact Hn|].
  destruct (signTransaction _ _ _) as [signed|m].
  - destruct (TxStore.putTx _ false (txStoreManager s)) as [store'|e];
      [|rewrite H in Hr; discriminate].
    destruct (broadcastTransaction (contractInteractor this) signed);
      [|rewrite H in Hr; discriminate].
    rewrite H in Hr. unfold checkHash in Hr. case_decide; discriminate.
  - rewrite H in Hr. injection Hr as _ ->.
    split; [reflexivity|]. split; [apply polled_afterPoll|apply afterPoll_store].
Qed.

(** X9. When the node rejects the broadcast, the send fails with the node's
    error after the fact: the row is already stored and the counter already
    incremented. *)
Theorem send_broadcast_rejected (d : SendTransactionDetails) (s : State)
    (p : string) (n : Z) (signed : PrefixedHexString) (store' : TxStore.t)
    (message : string) :
  priceOf this d = Ok p ->
  getTransactionCount (contractInteractor this) (sd_signer d) (Some "pending") = Ok n ->
  signTransaction (keyManagerFor this (sd_signer d)) (sd_signer d)
    (sendTxToSign this d (Js.parseInt p) (polled n s (sd_signer d))) = Ok signed ->
  TxStore.putTx (sentRow txHash this d p n s signed) false (txStoreManager s)
    = Ok store' ->
  broadcastTransaction (contractInteractor this) signed = Err message ->
  sendTransaction txHash this d s
    = (Err (ChainError message),
       {| nonces := <[sd_signer d := Js.incr (polled n s (sd_signer d))]> (nonces s);
          txStoreManager := store' |}) /\
  TxStore.lookup (TxStore.key (sentRow txHash this d p n s signed)) store'
    = Some (sentRow txHash this d p n s signed).
Proof.
  intros Hp Hn Hsign Hput Hcast.
  split; [|exact (putTx_lookup _ _ _ _ Hput)].
  destruct (send_outcome d s)
    as [[m [Hp' _]]|[[p' [m [_ [Hn' _]]]]|[p' [n' [Hp' [Hn' Hr]]]]]];
    try congruence.
  rewrite Hp in Hp'. injection Hp' as <-.
  rewrite Hn in Hn'. injection Hn' as <-.
  cbv zeta in Hr. now rewrite Hsign, Hput, Hcast in Hr.
Qed.

(** X10. Two sends in a row for the same signer, both resolving: the rows are
    stored under consecutive nonces, [max c n] and the next, both are in the
    store at the end, and the counter stands one past the second. *)
Theorem send_twice_consecutive (d1 d2 : SendTransactionDetails) (s s1 s2 : State)
    (r1 r2 : SignedTransactionDetails) (c n : Z) :
  sd_signer d2 = sd_signer d1 ->
  nonces s !! sd_signer d1 = Some (Js.Num c) ->
  getTransactionCount (contractInteractor this) (sd_signer d1) (Some "pending") = Ok n ->
  sendTransaction txHash this d1 s = (Ok r1, s1) ->
  sendTransaction txHash this d2 s1 = (Ok r2, s2) ->
  (exists row1, TxStore.lookup (sd_signer d1, Z.max c n) (txStoreManager s2) = Some row1
                /\ TxStore.lookup (sd_signer d1, Z.max c n) (txStoreManager s1) = Some row1) /\
  (exists row2, TxStore.lookup (sd_signer d1, Z.max c n + 1) (txStoreManager s2) = Some row2
                /\ nonce row2 = Z.max c n + 1 /\ attempts row2 = 1) /\
  nonces s2 !! sd_signer d1 = Some (Js.Num (Z.max c n + 2)).
Proof.
  intros Hsame Hc Hn H1 H2.
  destruct (send_ok_inv _ _ _ _ H1) as [p1 [n1 [_ [Hn1 [_ [Hput1 [Hcounters1 _]]]]]]].
  destruct (send_ok_inv _ _ _ _ H2) as [p2 [n2 [_ [Hn2 [_ [Hput2 [Hcounters2 _]]]]]]].
  rewrite Hsame in *. rewrite Hn in Hn1, Hn2.
  injection Hn1 as <-. injection Hn2 as <-.
  pose proof (polled_num n c s _ Hc) as Hpolled1.
  assert (Hc1 : nonces s1 !! sd_signer d1 = Some (Js.Num (Z.max c n + 1))).
  { rewrite Hcounters1, lookup_insert_eq, Hpolled1. reflexivity. }
  pose proof (polled_num n _ s1 _ Hc1) as Hpolled2.
  replace (Z.max (Z.max c n + 1) n) with (Z.max c n + 1) in Hpolled2 by lia.
  pose proof (putTx_lookup _ _ _ _ Hput1) as Hrow1.
  pose proof (putTx_lookup _ _ _ _ Hput2) as Hrow2.
  assert (Hkey1 : TxStore.key (sentRow txHash this d1 p1 n s (signedTx r1))
                  = (sd_signer d1, Z.max c n)).
  { unfold TxStore.key, sentRow. cbn. now rewrite Hpolled1. }
  assert (Hkey2 : TxStore.key (sentRow txHash this d2 p2 n s1 (signedTx r2))
                  = (sd_signer d1, Z.max c n + 1)).
  { unfold TxStore.key, sentRow. cbn. now rewrite Hsame, Hpolled2. }
  rewrite Hkey1 in Hrow1. rewrite Hkey2 in Hrow2.
  split; [|split].
  - eexists. split; [|exact Hrow1].
    rewrite (putTx_lookup_other _ _ _ _ (sd_signer d1, Z.max c n) Hput2);
      [exact Hrow1|].
    rewrite Hkey2. intros Heq. injection Heq. lia.
  - eexists. split; [exact Hrow2|]. split; [|reflexivity].
    unfold sentRow. cbn. now rewrite Hsame, Hpolled2.
  - rewrite Hcounters2, lookup_insert_eq, Hpolled2. cbn [Js.incr].
    do 2 f_equal. lia.
Qed.

End SendOutcomes.

(** ** More on resending *)

Section ResendOutcomes.

Variable txHash : Transaction -> PrefixedHexString.
Variable this : TransactionManager.

Lemma resentRow_key (tx : StoredTransaction) (currentBlock : Z) (newGasPrice : float)
    (signed : PrefixedHexString) :
  TxStore.key (resentRow txHash this tx currentBlock newGasPrice signed) = TxStore.key tx.
Proof. reflexivity. Qed.

Lemma resendTransaction_refused (tx : StoredTransaction) (currentBlock : Z)
    (newGasPrice : float) (capped : bool) (s : State) (message : string) :
  signTransaction (keyManagerFor this (from tx)) (from tx)
    (resendTxToSign this tx newGasPrice) = Err message ->
  resendTransaction txHash this tx currentBlock newGasPrice capped s
    = (Err (KeyManagerError message), s).
Proof.
  intros Hsign. unfold resendTransaction. cbv zeta.
  now rewrite bind_run, await_run, Hsign.
Qed.

(** The state a resend leaves: the one it found, when the key manager
    refused; otherwise the one with the row replaced. *)
Lemma resend_state (tx : StoredTransaction) (currentBlock : Z) (newGasPrice : float)
    (capped : bool) (s : State) :
  snd (resendTransaction txHash this tx currentBlock newGasPrice capped s) = s \/
  exists signed store',
    signTransaction (keyManagerFor this (from tx)) (from tx)
      (resendTxToSign this tx newGasPrice) = Ok signed /\
    TxStore.putTx (resentRow txHash this tx currentBlock newGasPrice signed) true
      (txStoreManager s) = Ok store' /\
    snd (resendTransaction txHash this tx currentBlock newGasPrice capped s)
      = withStore s store'.
Proof.
  destruct (signTransaction (keyManagerFor this (from tx)) (from tx)
              (resendTxToSign this tx newGasPrice)) as [signed|message] eqn:Hsign.
  - right.
    destruct (resendTransaction_run txHash this tx currentBlock newGasPrice capped s
                signed Hsign) as [store' [Hput Hrun]].
    exists signed, store'. split; [reflexivity|]. split; [exact Hput|].
    rewrite Hrun.
    destruct (getTransactionCount (contractInteractor this) (from tx) None);
      [|reflexivity].
    destruct (broadcastTransaction (contractInteractor this) signed); [|reflexivity].
    apply checkHash_state.
  - left. now rewrite (resendTransaction_refused _ _ _ _ _ _ Hsign).
Qed.

(** X11. Whatever its outcome, [resendTransaction] changes no counter, removes
    no row, and leaves the row under every other key as it was. *)
Theorem resend_frame (tx : StoredTransaction) (currentBlock : Z) (newGasPrice : float)
    (capped : bool) (s : State) :
  let s' := snd (resendTransaction txHash this tx currentBlock newGasPrice capped s) in
  nonces s' = nonces s /\
  (forall k, is_Some (TxStore.lookup k (txStoreManager s)) ->
             is_Some (TxStore.lookup k (txStoreManager s'))) /\
  (forall k, k <> TxStore.key tx ->
             TxStore.lookup k (txStoreManager s') = TxStore.lookup k (txStoreManager s)).
Proof.
  cbv zeta.
  destruct (resend_state tx currentBlock newGasPrice capped s)
    as [->|[signed [store' [_ [Hput ->]]]]]; [now auto|].
  cbn [withStore nonces txStoreManager]. split; [reflexivity|split].
  - intros k Hk. exact (putTx_keeps_keys _ _ _ _ k Hput Hk).
  - intros k Hk. apply (putTx_lookup_other _ _ _ _ k Hput).
    now rewrite resentRow_key.
Qed.

(** X12. Once the key manager has signed, the stored row is replaced before the
    node is asked anything: when the node rejects the count that is only
    logged, or rejects the broadcast, the resend fails with the node's error
    and the store already holds the new row, with its new [txId] and one
    more attempt. *)
Theorem resend_rejected_after_replace (tx : StoredTransaction) (currentBlock : Z)
    (newGasPrice : float) (capped : bool) (s : State) (signed : PrefixedHexString)
    (message : string) :
  signTransaction (keyManagerFor this (from tx)) (from tx)
    (resendTxToSign this tx newGasPrice) = Ok signed ->
  getTransactionCount (contractInteractor this) (from tx) None = Err message
  \/ ((exists n, getTransactionCount (contractInteractor this) (from tx) None = Ok n)
      /\ broadcastTransaction (contractInteractor this) signed = Err message) ->
  let newRow := resentRow txHash this tx currentBlock newGasPrice signed in
  fst (resendTransaction txHash this tx currentBlock newGasPrice capped s)
    = Err (ChainError message) /\
  TxStore.lookup (TxStore.key tx)
    (txStoreManager
       (snd (resendTransaction txHash this tx currentBlock newGasPrice capped s)))
    = Some newRow /\
  attempts newRow = attempts tx + 1 /\
  txId newRow = txHash (signedWith (resendTxToSign this tx newGasPrice) signed).
Proof.
  intros Hsign Hnode newRow.
  destruct (resendTransaction_run txHash this tx currentBlock newGasPrice capped s
              signed Hsign) as [store' [Hput Hrun]].
  fold (resentRow txHash this tx currentBlock newGasPrice signed) in Hput, Hrun.
  fold newRow in Hput, Hrun.
  assert (Hresult : resendTransaction txHash this tx currentBlock newGasPrice capped s
                    = (Err (ChainError message), withStore s store')).
  { rewrite Hrun. destruct Hnode as [->|[[n ->] ->]]; reflexivity. }
  rewrite Hresult. cbn [fst snd withStore txStoreManager].
  split; [reflexivity|]. split; [|split; reflexivity].
  exact (putTx_lookup _ _ _ _ Hput).
Qed.

(** X13. Once signed, counted and broadcast, a resend resolves with the node's
    hash when that is the new row's [txId] up to case, and fails with the
    hash mismatch otherwise; either way the new row is the one stored. *)
Theorem resend_hash_check (tx : StoredTransaction) (currentBlock : Z)
    (newGasPrice : float) (capped : bool) (s : State) (signed hash : PrefixedHexString)
    (n : Z) :
  signTransaction (keyManagerFor this (from tx)) (from tx)
    (resendTxToSign this tx newGasPrice) = Ok signed ->
  getTransactionCount (contractInteractor this) (from tx) None = Ok n ->
  broadcastTransaction (contractInteractor this) signed = Ok hash ->
  let newRow := resentRow txHash this tx currentBlock newGasPrice signed in
  let result := resendTransaction txHash this tx currentBlock newGasPrice capped s in
  (Js.toLowerCase hash = Js.toLowerCase (txId newRow) ->
     fst result = Ok {| transactionHash := hash; signedTx := signed |}) /\
  (Js.toLowerCase hash <> Js.toLowerCase (txId newRow) ->
     fst result = Err (TxHashMismatch hash (txId newRow))) /\
  TxStore.lookup (TxStore.key tx) (txStoreManager (snd result)) = Some newRow.
Proof.
  intros Hsign Hn Hcast newRow result.
  destruct (resendTransaction_run txHash this tx currentBlock newGasPrice capped s
              signed Hsign) as [store' [Hput Hrun]].
  fold (resentRow txHash this tx currentBlock newGasPrice signed) in Hput, Hrun.
  fold newRow in Hput, Hrun. rewrite Hn, Hcast in Hrun.
  unfold result. rewrite Hrun. unfold checkHash.
  split; [|split].
  - intros Hcmp. case_decide; [tauto|reflexivity].
  - intros Hcmp. case_decide; [reflexivity|tauto].
  - case_decide; exact (putTx_lookup _ _ _ _ Hput).
Qed.

(** A stored row is found by its key. *)
Lemma lookup_In (row : StoredTransaction) (s : TxStore.t) :
  In row s -> is_Some (TxStore.lookup (TxStore.key row) s).
Proof.
  induction s as [|head rest IH]; [contradiction|].
  intros [->|Hin]; simpl.
  - rewrite compareKeys_refl. eauto.
  - destruct (TxStore.compareKeys (TxStore.key row) (TxStore.key head)); eauto.
Qed.

(** What the boost loop does to the state, whatever its outcome. *)
Lemma boostLoop_frame (currentBlock : Z) (newGasPrice : float) (capped : bool)
    (underpriced : list StoredTransaction) :
  forall (boosted : gmap PrefixedHexString SignedTransactionDetails) (s : State),
    let s' := snd (boostLoop txHash this underpriced currentBlock newGasPrice capped
                     boosted s) in
    nonces s' = nonces s /\
    (forall k, is_Some (TxStore.lookup k (txStoreManager s)) ->
               is_Some (TxStore.lookup k (txStoreManager s'))) /\
    (forall k, is_Some (TxStore.lookup k (txStoreManager s')) ->
               is_Some (TxStore.lookup k (txStoreManager s))
               \/ exists tx, In tx underpriced /\ TxStore.key tx = k) /\
    (forall k, (forall tx, In tx underpriced -> TxStore.key tx <> k) ->
               TxStore.lookup k (txStoreManager s') = TxStore.lookup k (txStoreManager s)).
Proof.
  induction underpriced as [|tx rest IH]; intros boosted s; cbv zeta.
  - simpl. repeat split; auto.
  - simpl. rewrite bind_run.
    pose proof (resend_state tx currentBlock newGasPrice capped s) as Hstate.
    destruct (resendTransaction txHash this tx currentBlock newGasPrice capped s)
      as [[details|e] s1] eqn:Hresend; cbn [snd] in Hstate |- *.
    + specialize (IH (<[txId tx := details]> boosted) s1). cbv zeta in IH.
      destruct IH as [Hnonces [Hkeep [Hnew Hother]]].
      destruct Hstate as [->|[signed [store' [_ [Hput ->]]]]].
      * split; [exact Hnonces|]. split; [exact Hkeep|]. split.
        -- intros k Hk. destruct (Hnew k Hk) as [?|[tx' [? ?]]]; [now left|].
           right. exists tx'. split; [now right|assumption].
        -- intros k Hk. apply Hother. intros tx' Hin. apply Hk. now right.
      * cbn [withStore nonces txStoreManager] in *.
        split; [exact Hnonces|]. split; [|split].
        -- intros k Hk. apply Hkeep. exact (putTx_keeps_keys _ _ _ _ k Hput Hk).
        -- intros k Hk. destruct (Hnew k Hk) as [Hs1|[tx' [? ?]]].
           ++ destruct (decide (k = TxStore.key tx)) as [->|Hne].
              ** right. exists tx. split; [now left|reflexivity].
              ** left. rewrite (putTx_lookup_other _ _ _ _ k Hput) in Hs1;
                   [exact Hs1|now rewrite resentRow_key].
           ++ right. exists tx'. split; [now right|assumption].
        -- intros k Hk. rewrite Hother by (intros tx' Hin; apply Hk; now right).
           apply (putTx_lookup_other _ _ _ _ k Hput). rewrite resentRow_key.
           intros ->. now apply (Hk tx (or_introl eq_refl)).
    + destruct Hstate as [->|[signed [store' [_ [Hput ->]]]]]; [now auto|].
      cbn [withStore nonces txStoreManager].
      split; [reflexivity|]. split; [|split].
      * intros k Hk. exact (putTx_keeps_keys _ _ _ _ k Hput Hk).
      * intros k Hk. destruct (decide (k = TxStore.key tx)) as [->|Hne].
        -- right. exists tx. split; [now left|reflexivity].
        -- left. rewrite (putTx_lookup_other _ _ _ _ k Hput) in Hk;
             [exact Hk|now rewrite resentRow_key].
      * intros k Hk. apply (putTx_lookup_other _ _ _ _ k Hput).
        rewrite resentRow_key. intros ->. now apply (Hk tx (or_introl eq_refl)).
Qed.

(** ** More on boosting *)

Lemma getAllBySigner_In (signer : string) (store : TxStore.t) (tx : StoredTransaction) :
  In tx (TxStore.getAllBySigner signer store) -> In tx store /\ from tx = signer.
Proof.
  unfold TxStore.getAllBySigner. rewrite filter_In.
  intros [Hin Heq]. split; [exact Hin|]. now apply String.eqb_eq.
Qed.

Lemma underpricedTransactions_In (rows : list StoredTransaction) (newGasPrice : float)
    (tx : StoredTransaction) :
  In tx (underpricedTransactions rows newGasPrice) ->
  In tx rows /\ (gasPrice tx <? newGasPrice)%float = true.
Proof. unfold underpricedTransactions. now rewrite filter_In. Qed.

(** Every outcome of [boostUnderpricedPendingTransactionsForSigner]: it
    returns at once, fails on the count, or is the boost loop. *)
Lemma boost_outcome (signer : string) (currentBlock : Z) (s : State) :
  let result :=
    boostUnderpricedPendingTransactionsForSigner txHash this signer currentBlock s in
  result = (Ok ∅, s) \/
  (exists message, result = (Err (ChainError message), s)) \/
  (exists oldest rest,
      TxStore.getAllBySigner signer (txStoreManager s) = oldest :: rest /\
      result = boostLoop txHash this
                 (underpricedTransactions (oldest :: rest)
                    (fst (_resolveNewGasPrice this (gasPrice oldest))))
                 currentBlock
                 (fst (_resolveNewGasPrice this (gasPrice oldest)))
                 (snd (_resolveNewGasPrice this (gasPrice oldest))) ∅ s).
Proof.
  cbv zeta.
  destruct (TxStore.getAllBySigner signer (txStoreManager s)) as [|oldest rest] eqn:Hrows.
  { left. unfold boostUnderpricedPendingTransactionsForSigner.
    rewrite bind_run. unfold getState. cbn beta iota. now rewrite Hrows. }
  destruct (getTransactionCount (contractInteractor this) signer None)
    as [n|message] eqn:Hn.
  - rewrite (boost_run txHash this _ _ _ _ _ _ Hrows Hn).
    destruct (nonce oldest <? n); [now left|].
    destruct (currentBlock - lastSentAt oldest
                <? pendingTransactionTimeoutBlocks (config this)); [now left|].
    right. right. exists oldest, rest. split; reflexivity.
  - right. left. exists message.
    unfold boostUnderpricedPendingTransactionsForSigner.
    rewrite bind_run. unfold getState. cbn beta iota.
    now rewrite Hrows, bind_run, await_run, Hn.
Qed.

(** X14. Whatever its outcome, a boost changes no counter, neither adds nor
    removes a key of the store, and leaves every row of another sender as it
    was. *)
Theorem boost_frame (signer : string) (currentBlock : Z) (s : State) :
  let s' := snd (boostUnderpricedPendingTransactionsForSigner txHash this signer
                   currentBlock s) in
  nonces s' = nonces s /\
  (forall k, is_Some (TxStore.lookup k (txStoreManager s'))
             <-> is_Some (TxStore.lookup k (txStoreManager s))) /\
  (forall k, fst k <> signer ->
             TxStore.lookup k (txStoreManager s') = TxStore.lookup k (txStoreManager s)).
Proof.
  cbv zeta.
  destruct (boost_outcome signer currentBlock s)
    as [->|[[message ->]|[oldest [rest [Hrows ->]]]]];
    try (cbn [snd]; split; [reflexivity|split; [reflexivity|reflexivity]]).
  set (newGasPrice := fst (_resolveNewGasPrice this (gasPrice oldest))).
  set (capped := snd (_resolveNewGasPrice this (gasPrice oldest))).
  pose proof (boostLoop_frame currentBlock newGasPrice capped
                (underpricedTransactions (oldest :: rest) newGasPrice) ∅ s) as Hframe.
  cbv zeta in Hframe. destruct Hframe as [Hnonces [Hkeep [Hnew Hother]]].
  assert (Hrow : forall tx,
            In tx (underpricedTransactions (oldest :: rest) newGasPrice) ->
            In tx (txStoreManager s) /\ from tx = signer).
  { intros tx Hin. apply underpricedTransactions_In in Hin as [Hin _].
    rewrite <- Hrows in Hin. exact (getAllBySigner_In _ _ _ Hin). }
  split; [exact Hnonces|]. split.
  - intros k. split; [|apply Hkeep].
    intros Hk. destruct (Hnew k Hk) as [?|[tx [Hin <-]]]; [assumption|].
    apply lookup_In. now apply Hrow.
  - intros k Hk. apply Hother. intros tx Hin <-.
    apply Hk. unfold TxStore.key. cbn [fst]. now apply Hrow.
Qed.

(** The keys of a map the loop returns: those it started with and the
    [txId]s of the rows it was given. *)
Lemma boostLoop_result_keys (currentBlock : Z) (newGasPrice : float) (capped : bool)
    (underpriced : list StoredTransaction) :
  forall (boosted m : gmap PrefixedHexString SignedTransactionDetails) (s s' : State),
    boostLoop txHash this underpriced currentBlock newGasPrice capped boosted s
      = (Ok m, s') ->
    forall k, is_Some (m !! k) ->
              is_Some (boosted !! k) \/ exists tx, In tx underpriced /\ txId tx = k.
Proof.
  induction underpriced as [|tx rest IH]; intros boosted m s s'; simpl.
  - rewrite ret_run. intros H. injection H as <- <-. now left.
  - rewrite bind_run.
    destruct (resendTransaction txHash this tx currentBlock newGasPrice capped s)
      as [[details|e] s1]; [|discriminate].
    intros H k Hk. destruct (IH _ _ _ _ H k Hk) as [Hacc|[tx' [Hin Hid]]].
    + destruct (decide (txId tx = k)) as [Heq|Hne].
      * right. exists tx. split; [now left|exact Heq].
      * left. now rewrite lookup_insert_ne in Hacc.
    + right. exists tx'. split; [now right|exact Hid].
Qed.

(** X15. Every key of a map a boost returns is the [txId] of a stored row of
    the signer whose gas price was below the new gas price, the one computed
    from the signer's first row. *)
Theorem boost_result_keys (signer : string) (currentBlock : Z) (s s' : State)
    (m : gmap PrefixedHexString SignedTransactionDetails) (k : PrefixedHexString) :
  boostUnderpricedPendingTransactionsForSigner txHash this signer currentBlock s
    = (Ok m, s') ->
  is_Some (m !! k) ->
  exists oldest tx,
    head (TxStore.getAllBySigner signer (txStoreManager s)) = Some oldest /\
    In tx (txStoreManager s) /\ from tx = signer /\ txId tx = k /\
    (gasPrice tx <? fst (_resolveNewGasPrice this (gasPrice oldest)))%float = true.
Proof.
  intros H Hk.
  destruct (boost_outcome signer currentBlock s)
    as [Hr|[[message Hr]|[oldest [rest [Hrows Hr]]]]]; rewrite H in Hr.
  - injection Hr as -> _. rewrite lookup_empty in Hk. now destruct Hk.
  - discriminate.
  - symmetry in Hr.
    destruct (boostLoop_result_keys _ _ _ _ _ _ _ _ Hr k Hk) as [Hacc|[tx [Hin Hid]]].
    { rewrite lookup_empty in Hacc. now destruct Hacc. }
    apply underpricedTransactions_In in Hin as [Hin Hprice].
    exists oldest, tx. rewrite Hrows. split; [reflexivity|].
    rewrite <- Hrows in Hin. apply getAllBySigner_In in Hin as [Hin Hfrom].
    auto.
Qed.




End ResendOutcomes.

(** ** More on the confirmation sweep *)

(** What [removeTxsUntilNonce] leaves under a key: nothing for the sender's
    keys up to the nonce, the row that was there for every other key. *)
Lemma lookup_removeTxsUntilNonce (signer : string) (n : Z) (k : string * Z)
    (s : TxStore.t) :
  TxStore.lookup k (TxStore.removeTxsUntilNonce signer n s)
  = if String.eqb (fst k) signer && (snd k <=? n) then None else TxStore.lookup k s.
Proof.
  unfold TxStore.removeTxsUntilNonce.
  induction s as [|row rest IH]; simpl.
  - now destruct (String.eqb (fst k) signer && (snd k <=? n)).
  - destruct (TxStore.compareKeys k (TxStore.key row)) eqn:Hc.
    + apply compareKeys_eq in Hc. subst k. unfold TxStore.key in *. cbn [fst snd] in *.
      destruct (String.eqb (from row) signer && (nonce row <=? n)); simpl.
      * exact IH.
      * unfold TxStore.key. now rewrite compareKeys_refl.
    + destruct (negb (String.eqb (from row) signer && (nonce row <=? n))); simpl;
        [rewrite Hc|]; exact IH.
    + destruct (negb (String.eqb (from row) signer && (nonce row <=? n))); simpl;
        [rewrite Hc|]; exact IH.
Qed.

Section SweepOutcomes.

Variable this : TransactionManager.

(** The state one turn of the loop leaves, whatever its outcome: the one it
    found, one [putTx] of the row with a mined block, or one
    [removeTxsUntilNonce]. *)
Lemma removeConfirmed_body_state (blockNumber : Z) (transaction : StoredTransaction)
    (s : State) :
  let s' := snd (removeConfirmed_body this blockNumber transaction s) in
  s' = s \/
  (exists mined store',
      TxStore.putTx (withMinedBlockNumber transaction mined) true (txStoreManager s)
        = Ok store' /\ s' = withStore s store') \/
  (exists sender n,
      s' = withStore s (TxStore.removeTxsUntilNonce sender n (txStoreManager s))).
Proof.
  cbv zeta.
  destruct (shouldRecheck this blockNumber transaction) eqn:Hrecheck.
  2: { left. unfold removeConfirmed_body. now rewrite Hrecheck. }
  rewrite (removeConfirmed_body_run this _ _ _ Hrecheck).
  destruct (getTransaction (contractInteractor this) (txId transaction))
    as [[receipt|]|message]; try (now left).
  destruct (ct_blockNumber receipt) as [receiptBlock|]; [|now left].
  destruct (bool_decide (Some receiptBlock ≠ minedBlockNumber transaction)
            && (blockNumber - receiptBlock <? confirmationsNeeded (config this))).
  - right. left.
    destruct (putTx_replace_total (withMinedBlockNumber transaction receiptBlock)
                (txStoreManager s)) as [store' Hput].
    exists receiptBlock, store'. split; [exact Hput|].
    unfold putTx. now rewrite Hput.
  - right. right. exists (ct_from receipt), (ct_nonce receipt). reflexivity.
Qed.

(** The loop changes no counter and brings no key into the store that was
    not there, as long as the rows it walks have their keys there. *)
Lemma removeConfirmed_loop_frame (blockNumber : Z) (store0 : TxStore.t)
    (rows : list StoredTransaction) :
  (forall tx, In tx rows -> is_Some (TxStore.lookup (TxStore.key tx) store0)) ->
  forall s,
    (forall k, is_Some (TxStore.lookup k (txStoreManager s)) ->
               is_Some (TxStore.lookup k store0)) ->
    let s' := snd (forEach rows (removeConfirmed_body this blockNumber) s) in
    nonces s' = nonces s /\
    (forall k, is_Some (TxStore.lookup k (txStoreManager s')) ->
               is_Some (TxStore.lookup k store0)).
Proof.
  induction rows as [|tx rest IH]; intros Hrows s Hs; cbv zeta.
  - simpl. auto.
  - simpl. rewrite bind_run.
    pose proof (removeConfirmed_body_state blockNumber tx s) as Hstate.
    cbv zeta in Hstate.
    assert (Hs1 : nonces (snd (removeConfirmed_body this blockNumber tx s)) = nonces s
                  /\ forall k,
                       is_Some (TxStore.lookup k
                                  (txStoreManager
                                     (snd (removeConfirmed_body this blockNumber tx s)))) ->
                       is_Some (TxStore.lookup k store0)).
    { destruct Hstate as [->|[[mined [store' [Hput ->]]]|[sender [n ->]]]];
        cbn [withStore nonces txStoreManager]; (split; [reflexivity|]).
      - exact Hs.
      - intros k Hk. destruct (decide (k = TxStore.key tx)) as [->|Hne].
        + apply Hrows. now left.
        + apply Hs. now rewrite (putTx_lookup_other _ _ _ _ k Hput) in Hk.
      - intros k Hk. apply Hs. rewrite lookup_removeTxsUntilNonce in Hk.
        destruct (String.eqb (fst k) sender && (snd k <=? n));
          [now destruct Hk|exact Hk]. }
    destruct (removeConfirmed_body this blockNumber tx s) as [[[]|e] s1];
      cbn [snd] in Hs1 |- *; [|exact Hs1].
    destruct Hs1 as [Hnonces Hkeys].
    destruct (IH (fun tx' Hin => Hrows tx' (or_intror Hin)) s1 Hkeys) as [Hn Hk].
    split; [congruence|exact Hk].
Qed.

(** X17. Whatever its outcome, a sweep changes no counter and adds no row: every
    key the store holds afterwards, it held before. *)
Theorem sweep_frame (blockNumber : Z) (s : State) :
  let s' := snd (removeConfirmedTransactions this blockNumber s) in
  nonces s' = nonces s /\
  (forall k, is_Some (TxStore.lookup k (txStoreManager s')) ->
             is_Some (TxStore.lookup k (txStoreManager s))).
Proof.
  cbv zeta. unfold removeConfirmedTransactions.
  rewrite bind_run. unfold getState, TxStore.getAll. cbn beta iota.
  destruct (txStoreManager s) as [|tx rest] eqn:Hstore.
  - rewrite ret_run. cbn [snd]. rewrite Hstore. auto.
  - rewrite <- Hstore.
    apply (removeConfirmed_loop_frame blockNumber (txStoreManager s) (txStoreManager s));
      [intros tx' Hin; now apply lookup_In|auto].
Qed.

(** X18. A sweep over rows none of which is due for a recheck asks the node
    nothing and changes nothing, whatever the node would have answered. *)
Theorem sweep_nothing_due (blockNumber : Z) (s : State) :
  (forall tx, In tx (txStoreManager s) -> shouldRecheck this blockNumber tx = false) ->
  removeConfirmedTransactions this blockNumber s = (Ok tt, s).
Proof.
  intros Hdue. unfold removeConfirmedTransactions.
  rewrite bind_run. unfold getState, TxStore.getAll. cbn beta iota.
  assert (Hloop : forall rows,
            (forall tx, In tx rows -> shouldRecheck this blockNumber tx = false) ->
            forEach rows (removeConfirmed_body this blockNumber) s = (Ok tt, s)).
  { induction rows as [|tx rest IH]; intros Hrows; [reflexivity|].
    rewrite (forEach_skip _ tx rest s).
    - apply IH. intros tx' Hin. apply Hrows. now right.
    - unfold removeConfirmed_body. now rewrite (Hrows tx (or_introl eq_refl)). }
  destruct (txStoreManager s) as [|tx rest] eqn:Hstore; [reflexivity|].
  apply Hloop. exact Hdue.
Qed.

(** X19. A rejected [getTransaction] ends the sweep: when the first row due for
    a recheck is one the node rejects the lookup of, the sweep fails with
    the node's error, nothing has changed, and the rows after it are not
    looked at. *)
Theorem sweep_rejected_lookup (blockNumber : Z) (s : State)
    (skipped rest : list StoredTransaction) (tx : StoredTransaction)
    (message : string) :
  txStoreManager s = (skipped ++ tx :: rest)%list ->
  (forall tx', In tx' skipped -> shouldRecheck this blockNumber tx' = false) ->
  shouldRecheck this blockNumber tx = true ->
  getTransaction (contractInteractor this) (txId tx) = Err message ->
  removeConfirmedTransactions this blockNumber s = (Err (ChainError message), s).
Proof.
  intros Hstore Hskipped Hdue Hnode. unfold removeConfirmedTransactions.
  rewrite bind_run. unfold getState, TxStore.getAll. cbn beta iota.
  assert (Hloop : forEach (skipped ++ tx :: rest)%list (removeConfirmed_body this blockNumber) s
                  = (Err (ChainError message), s)).
  { clear Hstore. induction skipped as [|tx' more IH]; simpl.
    - rewrite bind_run, (removeConfirmed_body_run this _ _ _ Hdue), Hnode. reflexivity.
    - rewrite bind_run. unfold removeConfirmed_body at 1.
      rewrite (Hskipped tx' (or_introl eq_refl)). rewrite ret_run.
      apply IH. intros tx'' Hin. apply Hskipped. now right. }
  rewrite Hstore. destruct skipped; exact Hloop.
Qed.

End SweepOutcomes.

(** ** Sending, then boosting *)

Lemma putTx_filter_fresh (P : StoredTransaction -> bool) (tx : StoredTransaction)
    (b : bool) (s s' : TxStore.t) :
  TxStore.putTx tx b s = Ok s' ->
  List.filter P s = [] ->
  P tx = true ->
  List.filter P s' = [tx].
Proof.
  intros Hput Hnone HP. revert s' Hput.
  induction s as [|row rest IH]; simpl; intros s' Hput.
  - injection Hput as <-. simpl. now rewrite HP.
  - simpl in Hnone. destruct (P row) eqn:Hrow; [discriminate|].
    destruct (TxStore.compareKeys (TxStore.key tx) (TxStore.key row)).
    + destruct b; [|discriminate]. injection Hput as <-. simpl. now rewrite HP, Hnone.
    + injection Hput as <-. simpl. now rewrite HP, Hrow, Hnone.
    + destruct (TxStore.putTx tx b rest) as [rest'|e]; [|discriminate].
      injection Hput as <-. simpl. rewrite Hrow. now apply IH.
Qed.

(** X20. A transaction just sent for a signer with no other row is left alone
    by a boost until [pendingTransactionTimeoutBlocks] blocks have passed
    since the request's creation block: before that the boost returns the
    empty map and changes nothing. *)
Theorem fresh_send_not_boosted (txHash : Transaction -> PrefixedHexString)
    (this : TransactionManager) (d : SendTransactionDetails) (s s' : State)
    (r : SignedTransactionDetails) (currentBlock latest : Z) :
  sendTransaction txHash this d s = (Ok r, s') ->
  TxStore.getAllBySigner (sd_signer d) (txStoreManager s) = [] ->
  getTransactionCount (contractInteractor this) (sd_signer d) None = Ok latest ->
  currentBlock - sd_creationBlockNumber d < pendingTransactionTimeoutBlocks (config this) ->
  boostUnderpricedPendingTransactionsForSigner txHash this (sd_signer d) currentBlock s'
    = (Ok ∅, s').
Proof.
  intros Hsend Hnone Hlatest Hearly.
  destruct (send_ok_inv txHash this _ _ _ _ Hsend)
    as [p [n [_ [_ [_ [Hput _]]]]]].
  assert (Hrows : TxStore.getAllBySigner (sd_signer d) (txStoreManager s')
                  = [sentRow txHash this d p n s (signedTx r)]).
  { unfold TxStore.getAllBySigner in *.
    apply (putTx_filter_fresh _ _ _ _ _ Hput Hnone). apply String.eqb_refl. }
  rewrite (boost_run txHash this _ _ _ _ _ _ Hrows Hlatest).
  destruct (nonce (sentRow txHash this d p n s (signedTx r)) <? latest); [reflexivity|].
  replace (currentBlock - lastSentAt (sentRow txHash this d p n s (signedTx r))
             <? pendingTransactionTimeoutBlocks (config this)) with true; [reflexivity|].
  symmetry. apply Z.ltb_lt. exact Hearly.
Qed.

(** ** The further properties on the sample setting *)

Lemma send_ok_effects_witness :
  let this := manager (strictKeys "0xbb") (node 5) in
  nonces (snd (sendTransaction hashOf this (request "0xbb") (counting 3))) !! "0xbb"
    = Some (Js.Num 6).
Proof.
  refine (proj1 (send_ok_effects hashOf (manager (strictKeys "0xbb") (node 5))
                   (request "0xbb") (counting 3)
                   (snd (sendTransaction hashOf (manager (strictKeys "0xbb") (node 5))
                           (request "0xbb") (counting 3)))
                   {| transactionHash := "0xHf8bb05cc"; signedTx := "0xf8bb05cc" |}
                   3 5 eq_refl eq_refl _)).
  vm_compute. reflexivity.
Defined.

Lemma send_without_counter_leaves_NaN_witness :
  let this := manager (lenientKeys "0xbb") (node 5) in
  nonces (snd (sendTransaction hashOf this (request "0xdd") (constructed this [])))
    !! "0xdd" = Some Js.NaN.
Proof.
  refine (proj1 (send_without_counter_leaves_NaN hashOf
                   (manager (lenientKeys "0xbb") (node 5)) (request "0xdd")
                   (constructed (manager (lenientKeys "0xbb") (node 5)) [])
                   (snd (sendTransaction hashOf (manager (lenientKeys "0xbb") (node 5))
                           (request "0xdd")
                           (constructed (manager (lenientKeys "0xbb") (node 5)) [])))
                   {| transactionHash := "0xHf8dd00cc"; signedTx := "0xf8dd00cc" |}
                   _ _)).
  - vm_compute. reflexivity.
  - vm_compute. reflexivity.
Defined.

Lemma send_counter_never_decreases_witness :
  let this := manager (strictKeys "0xbb") (deadNode) in
  exists c',
    nonces (snd (sendTransaction hashOf this (request "0xbb") (counting 3))) !! "0xbb"
      = Some (Js.Num c') /\ 3 <= c'.
Proof.
  exact (send_counter_never_decreases hashOf (manager (strictKeys "0xbb") deadNode)
           (request "0xbb") (counting 3) 3 eq_refl).
Defined.

Lemma send_sign_refused_witness :
  let this := manager (strictKeys "0xbb") (node 5) in
  let s := constructed this [] in
  let s' := snd (sendTransaction hashOf this (request "0xdd") s) in
  exists n,
    getTransactionCount (contractInteractor this) "0xdd" (Some "pending") = Ok n /\
    s' = afterPoll n s "0xdd" /\
    nonces s' !! "0xdd" = polled n s "0xdd" /\
    txStoreManager s' = txStoreManager s.
Proof.
  refine (send_sign_refused hashOf (manager (strictKeys "0xbb") (node 5))
            (request "0xdd") (constructed (manager (strictKeys "0xbb") (node 5)) [])
            _ "Can't sign: signer is not managed" _).
  vm_compute. reflexivity.
Defined.

Lemma send_broadcast_rejected_witness :
  let this := manager (strictKeys "0xbb") (deafNode 5) in
  fst (sendTransaction hashOf this (request "0xbb") (counting 3))
    = Err (ChainError "timeout").
Proof.
  refine (f_equal fst
            (proj1 (send_broadcast_rejected hashOf (manager (strictKeys "0xbb") (deafNode 5))
                      (request "0xbb") (counting 3) "1000000000" 5 "0xf8bb05cc"
                      [sentRow hashOf (manager (strictKeys "0xbb") (deafNode 5))
                         (request "0xbb") "1000000000" 5 (counting 3) "0xf8bb05cc"]
                      "timeout" eq_refl eq_refl _ _ eq_refl))).
  - vm_compute. reflexivity.
  - vm_compute. reflexivity.
Defined.

Lemma send_twice_consecutive_witness :
  let this := manager (strictKeys "0xbb") (node 5) in
  let s1 := snd (sendTransaction hashOf this (request "0xbb") (counting 3)) in
  let s2 := snd (sendTransaction hashOf this (request "0xbb") s1) in
  nonces s2 !! "0xbb" = Some (Js.Num 7).
Proof.
  refine (proj2 (proj2 (send_twice_consecutive hashOf
                          (manager (strictKeys "0xbb") (node 5))
                          (request "0xbb") (request "0xbb") (counting 3) _ _
                          {| transactionHash := "0xHf8bb05cc"; signedTx := "0xf8bb05cc" |}
                          {| transactionHash := "0xHf8bb06cc"; signedTx := "0xf8bb06cc" |}
                          3 5 eq_refl eq_refl eq_refl _ _))).
  - vm_compute. reflexivity.
  - vm_compute. reflexivity.
Defined.

Lemma resend_rejected_after_replace_witness :
  let this := manager (strictKeys "0xbb") (pendingOnlyNode 5) in
  fst (resendTransaction hashOf this (row 5 10 100) 110 12.5 false
         (holding [row 5 10 100]))
    = Err (ChainError "timeout").
Proof.
  exact (proj1 (resend_rejected_after_replace hashOf
                  (manager (strictKeys "0xbb") (pendingOnlyNode 5))
                  (row 5 10 100) 110 12.5 false (holding [row 5 10 100])
                  "0xf8bb05cc" "timeout" eq_refl (or_introl eq_refl))).
Defined.

Lemma resend_hash_check_witness :
  let this := manager (strictKeys "0xbb") (lyingNode 5) in
  fst (resendTransaction hashOf this (row 5 10 100) 110 12.5 false
         (holding [row 5 10 100]))
    = Err (TxHashMismatch "0xdead" "0xhf8bb05cc").
Proof.
  refine (proj1 (proj2 (resend_hash_check hashOf
                          (manager (strictKeys "0xbb") (lyingNode 5))
                          (row 5 10 100) 110 12.5 false (holding [row 5 10 100])
                          "0xf8bb05cc" "0xdead" 5 eq_refl eq_refl eq_refl)) _).
  vm_compute. discriminate.
Defined.

Lemma boost_result_keys_witness :
  let this := manager (strictKeys "0xbb") (node 5) in
  let s := holding [row 5 10 100; row 6 15 100; row 7 30 100] in
  exists oldest tx,
    head (TxStore.getAllBySigner "0xbb" (txStoreManager s)) = Some oldest /\
    In tx (txStoreManager s) /\ from tx = "0xbb" /\ txId tx = "0xh05" /\
    (gasPrice tx <? fst (_resolveNewGasPrice this (gasPrice oldest)))%float = true.
Proof.
  refine (boost_result_keys hashOf (manager (strictKeys "0xbb") (node 5)) "0xbb" 110
            (holding [row 5 10 100; row 6 15 100; row 7 30 100]) _
            {[ "0xh05" := {| transactionHash := "0xHf8bb05cc"; signedTx := "0xf8bb05cc" |} ]}
            "0xh05" _ _).
  - vm_compute. reflexivity.
  - vm_compute. eauto.
Defined.


Lemma sweep_nothing_due_witness :
  let this := manager (strictKeys "0xbb") deadNode in
  removeConfirmedTransactions this 110 (holding [minedRow 7 30 100 105])
    = (Ok tt, holding [minedRow 7 30 100 105]).
Proof.
  refine (sweep_nothing_due (manager (strictKeys "0xbb") deadNode) 110
            (holding [minedRow 7 30 100 105]) _).
  intros tx [<-|[]]. reflexivity.
Defined.

Lemma sweep_rejected_lookup_witness :
  let this := manager (strictKeys "0xbb") deadNode in
  removeConfirmedTransactions this 110 (holding [minedRow 5 10 100 105; row 6 15 100])
    = (Err (ChainError "connection refused"),
       holding [minedRow 5 10 100 105; row 6 15 100]).
Proof.
  refine (sweep_rejected_lookup (manager (strictKeys "0xbb") deadNode) 110
            (holding [minedRow 5 10 100 105; row 6 15 100])
            [minedRow 5 10 100 105] [] (row 6 15 100) "connection refused"
            eq_refl _ eq_refl eq_refl).
  intros tx [<-|[]]. reflexivity.
Defined.

Lemma fresh_send_not_boosted_witness :
  let this := manager (strictKeys "0xbb") (node 5) in
  let s' := snd (sendTransaction hashOf this (request "0xbb") (counting 3)) in
  boostUnderpricedPendingTransactionsForSigner hashOf this "0xbb" 109 s' = (Ok ∅, s').
Proof.
  refine (fresh_send_not_boosted hashOf (manager (strictKeys "0xbb") (node 5))
            (request "0xbb") (counting 3) _
            {| transactionHash := "0xHf8bb05cc"; signedTx := "0xf8bb05cc" |}
            109 5 _ eq_refl eq_refl _).
  - vm_compute. reflexivity.
  - vm_compute. reflexivity.
Defined.
